(** * vitgo: manifest analysis, configuration defaults and the guarded asset server

    A shallow embedding of [utils.go] and [asset-server.go].

    Go strings are byte sequences and are modelled by [string] (lists of
    8-bit [ascii]); Go maps with string keys are [gmap string string] (a
    nil map and an empty map answer every lookup alike); a Go [int] status
    code is a [Z].  Functions that mutate their receiver return the new
    value of the receiver; functions that return [(T, error)] return a
    [result]. *)

From stdpp Require Import base strings list gmap pretty.
From Stdlib Require Import ZArith Ascii String.

Open Scope string_scope.

(** ** Go runtime notions shared by both files *)

Module Go.

(** Go's [error] values, as far as the code distinguishes them: it only
    tests [err != nil] and passes errors on. *)
Inductive error : Type :=
| ErrNotExist (path : string)
| ErrInvalid (path : string)
| ErrPermission (path : string)
| ErrMsg (msg : string).

(** A Go result pair [(T, error)]: exactly one side is meaningful. *)
Inductive result (A : Type) : Type :=
| Ok (a : A)
| Err (e : error).
Arguments Ok {A} a.
Arguments Err {A} e.

Definition is_ok {A} (r : result A) : bool :=
  match r with Ok _ => true | Err _ => false end.

(** [strings.Split(s, sep)] for a one-byte separator: the pieces between
    the separators, in order; always at least one piece. *)
Fixpoint strings_Split (s : string) (sep : ascii) : list string :=
  match s with
  | EmptyString => [EmptyString]
  | String c s' =>
      if Ascii.eqb c sep then EmptyString :: strings_Split s' sep
      else match strings_Split s' sep with
           | piece :: pieces => String c piece :: pieces
           | [] => [String c EmptyString]
           end
  end.

(** [strings.Replace(s, old, "", -1)] for a one-byte [old]: every
    occurrence of the byte is removed. *)
Fixpoint strings_Remove (s : string) (old : ascii) : string :=
  match s with
  | EmptyString => EmptyString
  | String c s' =>
      if Ascii.eqb c old then strings_Remove s' old
      else String c (strings_Remove s' old)
  end.

(** [s[n:]]: [None] stands for the run-time panic of slicing past the end. *)
Fixpoint slice_from (s : string) (n : nat) : option string :=
  match n, s with
  | O, _ => Some s
  | S n', String _ s' => slice_from s' n'
  | S _, EmptyString => None
  end.

(** The last byte-string of a non-empty slice: [parts[len(parts)-1]]. *)
Definition last_part (parts : list string) : string :=
  List.last parts EmptyString.

Definition LF : ascii := Ascii.ascii_of_nat 10.
Definition CR : ascii := Ascii.ascii_of_nat 13.

End Go.

Import Go.

(** ** utils.go: the manifest and the inferred application parameters *)

Module PackageJSON.
Record t : Type := mk {
  Name : string;
  Version : string;
  Type_ : string;
  Scripts : gmap string string;
  Dependencies : gmap string string;
  DevDependencies : gmap string string
}.
End PackageJSON.

Module JSAppParams.
Record t : Type := mk {
  JSHash : string;
  ViteVersion : string;
  ViteMajorVer : string;
  PackageType : string;
  MajorVer : string;
  EntryPoint : string;
  HasTypeScript : bool;
  IsVanilla : bool;
  VueVersion : string;
  ReactVersion : string;
  PreactVersion : string;
  SvelteVersion : string;
  LitVersion : string
}.

(** The zero value [JSAppParams{}]. *)
Definition zero : t := mk "" "" "" "" "" "" false false "" "" "" "" "".

(** Field assignments [output.F = v]. *)
Definition set_ViteVersion (v : string) (o : t) : t :=
  mk (JSHash o) v (ViteMajorVer o) (PackageType o) (MajorVer o)
     (EntryPoint o) (HasTypeScript o) (IsVanilla o) (VueVersion o)
     (ReactVersion o) (PreactVersion o) (SvelteVersion o) (LitVersion o).
Definition set_ViteMajorVer (v : string) (o : t) : t :=
  mk (JSHash o) (ViteVersion o) v (PackageType o) (MajorVer o)
     (EntryPoint o) (HasTypeScript o) (IsVanilla o) (VueVersion o)
     (ReactVersion o) (PreactVersion o) (SvelteVersion o) (LitVersion o).
Definition set_PackageType (v : string) (o : t) : t :=
  mk (JSHash o) (ViteVersion o) (ViteMajorVer o) v (MajorVer o)
     (EntryPoint o) (HasTypeScript o) (IsVanilla o) (VueVersion o)
     (ReactVersion o) (PreactVersion o) (SvelteVersion o) (LitVersion o).
Definition set_MajorVer (v : string) (o : t) : t :=
  mk (JSHash o) (ViteVersion o) (ViteMajorVer o) (PackageType o) v
     (EntryPoint o) (HasTypeScript o) (IsVanilla o) (VueVersion o)
     (ReactVersion o) (PreactVersion o) (SvelteVersion o) (LitVersion o).
Definition set_EntryPoint (v : string) (o : t) : t :=
  mk (JSHash o) (ViteVersion o) (ViteMajorVer o) (PackageType o) (MajorVer o)
     v (HasTypeScript o) (IsVanilla o) (VueVersion o)
     (ReactVersion o) (PreactVersion o) (SvelteVersion o) (LitVersion o).
Definition set_HasTypeScript (v : bool) (o : t) : t :=
  mk (JSHash o) (ViteVersion o) (ViteMajorVer o) (PackageType o) (MajorVer o)
     (EntryPoint o) v (IsVanilla o) (VueVersion o)
     (ReactVersion o) (PreactVersion o) (SvelteVersion o) (LitVersion o).
Definition set_IsVanilla (v : bool) (o : t) : t :=
  mk (JSHash o) (ViteVersion o) (ViteMajorVer o) (PackageType o) (MajorVer o)
     (EntryPoint o) (HasTypeScript o) v (VueVersion o)
     (ReactVersion o) (PreactVersion o) (SvelteVersion o) (LitVersion o).
Definition set_VueVersion (v : string) (o : t) : t :=
  mk (JSHash o) (ViteVersion o) (ViteMajorVer o) (PackageType o) (MajorVer o)
     (EntryPoint o) (HasTypeScript o) (IsVanilla o) v
     (ReactVersion o) (PreactVersion o) (SvelteVersion o) (LitVersion o).
Definition set_ReactVersion (v : string) (o : t) : t :=
  mk (JSHash o) (ViteVersion o) (ViteMajorVer o) (PackageType o) (MajorVer o)
     (EntryPoint o) (HasTypeScript o) (IsVanilla o) (VueVersion o)
     v (PreactVersion o) (SvelteVersion o) (LitVersion o).
Definition set_PreactVersion (v : string) (o : t) : t :=
  mk (JSHash o) (ViteVersion o) (ViteMajorVer o) (PackageType o) (MajorVer o)
     (EntryPoint o) (HasTypeScript o) (IsVanilla o) (VueVersion o)
     (ReactVersion o) v (SvelteVersion o) (LitVersion o).
Definition set_SvelteVersion (v : string) (o : t) : t :=
  mk (JSHash o) (ViteVersion o) (ViteMajorVer o) (PackageType o) (MajorVer o)
     (EntryPoint o) (HasTypeScript o) (IsVanilla o) (VueVersion o)
     (ReactVersion o) (PreactVersion o) v (LitVersion o).
Definition set_LitVersion (v : string) (o : t) : t :=
  mk (JSHash o) (ViteVersion o) (ViteMajorVer o) (PackageType o) (MajorVer o)
     (EntryPoint o) (HasTypeScript o) (IsVanilla o) (VueVersion o)
     (ReactVersion o) (PreactVersion o) (SvelteVersion o) v.
End JSAppParams.

(** *** The version pattern [^[\^]*((\d+)\.\d+\.\d+)$]

    The pattern is anchored at both ends, a caret is not a digit and a
    digit is not a dot, so a match splits the text in one way only: all
    leading carets, then three non-empty digit runs separated by dots. *)

Module SemVer.

(** [\d]: an ASCII digit. *)
Definition isDigit (c : ascii) : bool :=
  let n := Ascii.nat_of_ascii c in (48 <=? n)%nat && (n <=? 57)%nat.

Definition caret : ascii := Ascii.ascii_of_nat 94.
Definition dot : ascii := Ascii.ascii_of_nat 46.

(** [[\^]*]: skip every leading caret. *)
Fixpoint dropCarets (s : string) : string :=
  match s with
  | String c s' => if Ascii.eqb c caret then dropCarets s' else s
  | EmptyString => s
  end.

(** [\d*], greedy: the longest digit prefix and what follows it. *)
Fixpoint spanDigits (s : string) : string * string :=
  match s with
  | String c s' =>
      if isDigit c
      then let '(ds, rest) := spanDigits s' in (String c ds, rest)
      else (EmptyString, s)
  | EmptyString => (EmptyString, EmptyString)
  end.

(** [\d+\.]: a non-empty digit run followed by a dot. *)
Definition digitsThenDot (s : string) : option (string * string) :=
  match spanDigits s with
  | (String d ds, String c rest) =>
      if Ascii.eqb c dot then Some (String d ds, rest) else None
  | _ => None
  end.

(** [semVer.FindStringSubmatch(verStr)]: [nil] when there is no match,
    else the whole match and the two groups. *)
Definition FindStringSubmatch (verStr : string) : option (list string) :=
  let body := dropCarets verStr in
  match digitsThenDot body with
  | Some (major, afterMajor) =>
      match digitsThenDot afterMajor with
      | Some (_, afterMinor) =>
          match spanDigits afterMinor with
          | (String _ _, EmptyString) => Some [verStr; body; major]
          | _ => None
          end
      | None => None
      end
  | None => None
  end.

End SemVer.

(** [getSemVer]: the major and the full version, empty strings when the
    text does not fit the pattern. *)
Definition getSemVer (verStr : string) : string * string :=
  let matches := SemVer.FindStringSubmatch verStr in
  match matches with
  | Some ms => (nth 2 ms EmptyString, nth 1 ms EmptyString)
  | None => (EmptyString, EmptyString)
  end.

Definition supported : list string :=
  ["vue"; "react"; "preact"; "svelte"; "lit"].

(** The body of [switch pkg] for a framework found among the runtime
    dependencies: the per-framework version field and the entry point. *)
Definition handleByCategory (pkg full : string) (output : JSAppParams.t)
  : JSAppParams.t * string :=
  let entryPt := "src/main.js" in
  if String.eqb pkg "vue" then
    (JSAppParams.set_VueVersion full output,
     if JSAppParams.HasTypeScript output then "src/main.ts" else entryPt)
  else if String.eqb pkg "react" then
    (JSAppParams.set_ReactVersion full output,
     if JSAppParams.HasTypeScript output then "src/main.tsx" else "src/main.jsx")
  else if String.eqb pkg "preact" then
    (JSAppParams.set_PreactVersion full output,
     if JSAppParams.HasTypeScript output then "src/main.tsx" else "src/main.jsx")
  else if String.eqb pkg "lit" then
    (JSAppParams.set_LitVersion full output, "")
  else (output, entryPt).

(** The loop [for _, pkg := range supported]: a successful lookup fills
    the output and leaves the loop ([break]); a failed one moves on. *)
Fixpoint rangeSupported (pkgJSON : PackageJSON.t) (pkgs : list string)
    (output : JSAppParams.t) : JSAppParams.t :=
  match pkgs with
  | [] => output
  | pkg :: rest =>
      if String.eqb pkg "svelte" then
        match PackageJSON.DevDependencies pkgJSON !! "svelte" with
        | Some sVer =>
            let '(major, full) := getSemVer sVer in
            let output := JSAppParams.set_PackageType pkg output in
            let output := JSAppParams.set_MajorVer major output in
            let output := JSAppParams.set_SvelteVersion full output in
            let entryPt :=
              if JSAppParams.HasTypeScript output
              then "src/main.ts" else "src/main.js" in
            JSAppParams.set_EntryPoint entryPt output
        | None => rangeSupported pkgJSON rest output
        end
      else
        match PackageJSON.Dependencies pkgJSON !! pkg with
        | Some vers =>
            let output := JSAppParams.set_PackageType pkg output in
            let '(major, full) := getSemVer vers in
            let output := JSAppParams.set_MajorVer major output in
            let '(output, entryPt) := handleByCategory pkg full output in
            JSAppParams.set_EntryPoint entryPt output
        | None => rangeSupported pkgJSON rest output
        end
  end.

(** [analyzePackageJSON]: [None] is the nil result. *)
Definition analyzePackageJSON (pkgJSON : PackageJSON.t) : option JSAppParams.t :=
  let output := JSAppParams.zero in
  match PackageJSON.DevDependencies pkgJSON !! "vite" with
  | None => None
  | Some viteVers =>
      let '(major, full) := getSemVer viteVers in
      let output := JSAppParams.set_ViteMajorVer major output in
      let output := JSAppParams.set_ViteVersion full output in
      let output :=
        if decide (is_Some (PackageJSON.DevDependencies pkgJSON !! "typescript"))
        then JSAppParams.set_HasTypeScript true output else output in
      let output := rangeSupported pkgJSON supported output in
      let output :=
        if String.eqb (JSAppParams.PackageType output) ""
        then
          let output := JSAppParams.set_IsVanilla true output in
          let output := JSAppParams.set_PackageType "vanilla" output in
          if JSAppParams.HasTypeScript output
          then JSAppParams.set_EntryPoint "src/main.ts" output
          else JSAppParams.set_EntryPoint "main.js" output
        else output in
      Some output
  end.

(** ** The file store interface [io/fs]

    The code needs three things of a store (open by path, stat for
    directory-ness, list directory entries) and reads the whole manifest.
    A store is read-only, so opening is a function of the path; a handle
    carries what its methods answer. *)

Module fs.

Record FileInfo : Type := mkFileInfo { IsDir : bool }.

(** An open handle: what [Stat], [Close], reading to the end and, when
    the handle is a [ReadDirFile], [ReadDir(-1)] (the entry names)
    answer. [Close] gives [None] for a nil error. *)
Record File : Type := mkFile {
  Stat : result FileInfo;
  Close : option error;
  ReadAll : result string;
  ReadDirNames : option (result (list string))
}.

(** A store: its [Open] method, and whether its dynamic type is
    [embed.FS] (what the type assertion [vc.FS.(embed.FS)] tests). *)
Record FS : Type := mkFS {
  isEmbedFS : bool;
  Open : string -> result File
}.

(** [fs.ReadFile(fsys, name)]. *)
Definition ReadFile (fsys : FS) (name : string) : result string :=
  match Open fsys name with
  | Err err => Err err
  | Ok file => ReadAll file
  end.

(** Insertion of a name into a list sorted by byte order. *)
Fixpoint insertName (name : string) (names : list string) : list string :=
  match names with
  | [] => [name]
  | n :: ns =>
      if String.leb name n then name :: names else n :: insertName name ns
  end.

Definition sortNames (names : list string) : list string :=
  foldr insertName [] names.

(** [fs.ReadDir(fsys, name)] for a store that has no [ReadDir] method of
    its own: open the directory, list it, sort the entries by name. *)
Definition ReadDir (fsys : FS) (name : string) : result (list string) :=
  match Open fsys name with
  | Err err => Err err
  | Ok file =>
      match ReadDirNames file with
      | None => Err (ErrMsg "readdir: not implemented")
      | Some (Err err) => Err err
      | Some (Ok names) => Ok (sortNames names)
      end
  end.

End fs.

(** ** utils.go: the configuration and its two default passes *)

Module ViteConfig.

(** Modelled from the spec: the declaration of the [ViteConfig] struct is
    not in [utils.go] or [asset-server.go]; the record has the fields
    those files read and write, which are the settings section 3 of the
    specification lists for the runtime configuration (project root,
    environment, transport security flag, dev-server domain and port,
    mount prefix, output subdirectory, build-tool version, platform,
    entry point, detected profile) and the file store. [DevDefaults] is
    a pointer: [None] is nil. *)
Record t : Type := mk {
  FS : fs.FS;
  Environment : string;
  JSProjectPath : string;
  AssetsPath : string;
  ViteVersion : string;
  Platform : string;
  EntryPoint : string;
  URLPrefix : string;
  DevServerPort : string;
  DevServerDomain : string;
  HTTPS : bool;
  DevDefaults : option JSAppParams.t
}.

(** Field assignments [vc.F = v]. *)
Definition set_JSProjectPath (v : string) (vc : t) : t :=
  mk (FS vc) (Environment vc) v (AssetsPath vc) (ViteVersion vc)
     (Platform vc) (EntryPoint vc) (URLPrefix vc) (DevServerPort vc)
     (DevServerDomain vc) (HTTPS vc) (DevDefaults vc).
Definition set_AssetsPath (v : string) (vc : t) : t :=
  mk (FS vc) (Environment vc) (JSProjectPath vc) v (ViteVersion vc)
     (Platform vc) (EntryPoint vc) (URLPrefix vc) (DevServerPort vc)
     (DevServerDomain vc) (HTTPS vc) (DevDefaults vc).
Definition set_ViteVersion (v : string) (vc : t) : t :=
  mk (FS vc) (Environment vc) (JSProjectPath vc) (AssetsPath vc) v
     (Platform vc) (EntryPoint vc) (URLPrefix vc) (DevServerPort vc)
     (DevServerDomain vc) (HTTPS vc) (DevDefaults vc).
Definition set_Platform (v : string) (vc : t) : t :=
  mk (FS vc) (Environment vc) (JSProjectPath vc) (AssetsPath vc)
     (ViteVersion vc) v (EntryPoint vc) (URLPrefix vc)
     (DevServerPort vc) (DevServerDomain vc) (HTTPS vc) (DevDefaults vc).
Definition set_EntryPoint (v : string) (vc : t) : t :=
  mk (FS vc) (Environment vc) (JSProjectPath vc) (AssetsPath vc)
     (ViteVersion vc) (Platform vc) v (URLPrefix vc) (DevServerPort vc)
     (DevServerDomain vc) (HTTPS vc) (DevDefaults vc).
Definition set_URLPrefix (v : string) (vc : t) : t :=
  mk (FS vc) (Environment vc) (JSProjectPath vc) (AssetsPath vc)
     (ViteVersion vc) (Platform vc) (EntryPoint vc) v (DevServerPort vc)
     (DevServerDomain vc) (HTTPS vc) (DevDefaults vc).
Definition set_DevServerPort (v : string) (vc : t) : t :=
  mk (FS vc) (Environment vc) (JSProjectPath vc) (AssetsPath vc)
     (ViteVersion vc) (Platform vc) (EntryPoint vc) (URLPrefix vc) v
     (DevServerDomain vc) (HTTPS vc) (DevDefaults vc).
Definition set_DevServerDomain (v : string) (vc : t) : t :=
  mk (FS vc) (Environment vc) (JSProjectPath vc) (AssetsPath vc)
     (ViteVersion vc) (Platform vc) (EntryPoint vc) (URLPrefix vc)
     (DevServerPort vc) v (HTTPS vc) (DevDefaults vc).
Definition set_DevDefaults (v : option JSAppParams.t) (vc : t) : t :=
  mk (FS vc) (Environment vc) (JSProjectPath vc) (AssetsPath vc)
     (ViteVersion vc) (Platform vc) (EntryPoint vc) (URLPrefix vc)
     (DevServerPort vc) (DevServerDomain vc) (HTTPS vc) v.

End ViteConfig.

(** What [utils.go] uses and does not declare: the JSON decoder of the Go
    library, and three constants of the package that are declared in
    another file of the repository. The resolver is stated for every
    choice of them. *)
Class ResolverEnv : Type := {
  (** [json.Unmarshal(buf, &content)] into a fresh [PackageJSON]. *)
  json_Unmarshal : string -> result PackageJSON.t;
  DEFAULT_VITE_VERSION : string;
  DEFAULT_PORT_V2 : string;
  DEFAULT_PORT_V3 : string
}.

Section Resolver.
Context `{ResolverEnv}.

Definition parsePackageJSON (vc : ViteConfig.t) : result PackageJSON.t :=
  let path :=
    if fs.isEmbedFS (ViteConfig.FS vc)
    then ViteConfig.JSProjectPath vc +:+ "/" else "" in
  match fs.ReadFile (ViteConfig.FS vc) (path +:+ "package.json") with
  | Err err => Err err
  | Ok buf =>
      match json_Unmarshal buf with
      | Err err => Err err
      | Ok content => Ok content
      end
  end.

(** [getViteVersion]: the receiver after the call, and the result. *)
Definition getViteVersion (vc : ViteConfig.t) : ViteConfig.t * result string :=
  if negb (String.eqb (ViteConfig.ViteVersion vc) "")
  then (vc, Ok (ViteConfig.ViteVersion vc))
  else
    match ViteConfig.DevDefaults vc with
    | None => (vc, Err (ErrMsg "not Vite project"))
    | Some devDefaults =>
        (ViteConfig.set_ViteVersion (JSAppParams.ViteMajorVer devDefaults) vc,
         Ok (JSAppParams.ViteMajorVer devDefaults))
    end.

(** Lines 225-231 of [SetDevelopmentDefaults]: store the analysis result
    and fix the local [version] that decides the port. *)
Definition detectVersion (defaults : JSAppParams.t) (vc : ViteConfig.t)
  : ViteConfig.t * string :=
  let vc := ViteConfig.set_DevDefaults (Some defaults) vc in
  match getViteVersion vc with
  | (vc, Ok version) => (vc, version)
  | (vc, Err _) =>
      let vc := ViteConfig.set_ViteVersion DEFAULT_VITE_VERSION vc in
      (vc, ViteConfig.ViteVersion vc)
  end.

(** Lines 233-258: every remaining field is set only when it is empty. *)
Definition fillDevelopment (defaults : JSAppParams.t) (version : string)
    (vc : ViteConfig.t) : ViteConfig.t :=
  let vc :=
    if String.eqb (ViteConfig.Platform vc) ""
    then ViteConfig.set_Platform (JSAppParams.PackageType defaults) vc
    else vc in
  let vc :=
    if String.eqb (ViteConfig.EntryPoint vc) ""
    then ViteConfig.set_EntryPoint (JSAppParams.EntryPoint defaults) vc
    else vc in
  let vc :=
    if String.eqb (ViteConfig.URLPrefix vc) ""
    then ViteConfig.set_URLPrefix "/src/" vc else vc in
  let vc :=
    if String.eqb (ViteConfig.DevServerPort vc) ""
    then
      if String.eqb version "2"
      then ViteConfig.set_DevServerPort DEFAULT_PORT_V2 vc
      else ViteConfig.set_DevServerPort DEFAULT_PORT_V3 vc
    else vc in
  if String.eqb (ViteConfig.DevServerDomain vc) ""
  then ViteConfig.set_DevServerDomain "localhost" vc else vc.

(** [SetDevelopmentDefaults]: the configuration after the call and the
    returned error ([None] is nil). *)
Definition SetDevelopmentDefaults (vc : ViteConfig.t)
  : ViteConfig.t * option error :=
  let vc :=
    if String.eqb (ViteConfig.JSProjectPath vc) ""
    then ViteConfig.set_JSProjectPath "frontend" vc else vc in
  match parsePackageJSON vc with
  | Err err => (vc, Some err)
  | Ok pkgJSON =>
      match analyzePackageJSON pkgJSON with
      | None => (vc, Some (ErrMsg "invalid configuration"))
      | Some defaults =>
          let '(vc, version) := detectVersion defaults vc in
          (fillDevelopment defaults version vc, None)
      end
  end.

Definition SetProductionDefaults (vc : ViteConfig.t)
  : ViteConfig.t * option error :=
  let vc :=
    if String.eqb (ViteConfig.JSProjectPath vc) ""
    then ViteConfig.set_JSProjectPath "frontend" vc else vc in
  let vc :=
    if String.eqb (ViteConfig.AssetsPath vc) ""
    then ViteConfig.set_AssetsPath "dist" vc else vc in
  let vc :=
    if String.eqb (ViteConfig.URLPrefix vc) ""
    then ViteConfig.set_URLPrefix "/assets/" vc else vc in
  (vc, None).

Definition buildDevServerBaseURL (vc : ViteConfig.t) : string :=
  let protocol := if ViteConfig.HTTPS vc then "https" else "http" in
  protocol +:+ "://" +:+ ViteConfig.DevServerDomain vc +:+ ":"
    +:+ ViteConfig.DevServerPort vc.

End Resolver.


(** ** The handler interface [net/http]

    A handler talks to its [ResponseWriter] and to the process logger, and
    it holds a pointer to the request, which it may assign to. Its run on
    one request is the sequence of those calls and assignments, each
    continued by the rest of the run; [Write] is continued with the error
    it returned. The writer the calls go to is the one the handler was
    given, so a wrapper around a handler is a function on such runs; the
    request a handler assigns to is the object its caller holds, so the
    caller reads the new fields after the call. *)

Module http.

Record URL : Type := mkURL {
  Path : string;
  RawPath : string;
  RawQuery : string
}.

Record Request : Type := mkRequest {
  Method : string;
  Proto : string;
  RemoteAddr : string;
  Url : URL
}.

(** Calls on the header map [w.Header()]. *)
Inductive headerOp : Type :=
| Add (key value : string)
| Set_ (key value : string)
| Del (key : string).

(** Calls on the logger: [log.Println(args...)] and
    [log.Printf(format, args...)]. *)
Inductive logArg : Type :=
| ArgS (s : string)
| ArgD (n : Z).

Inductive logCall : Type :=
| Println (args : list string)
| Printf (format : string) (args : list logArg).

Inductive prog (A : Type) : Type :=
| Return (a : A)
| Panic
| Header (op : headerOp) (k : prog A)
| WriteHeader (status : Z) (k : prog A)
| Write (buf : string) (k : option error -> prog A)
| Log (call : logCall) (k : prog A)
| Assign (r : Request) (k : prog A).
Arguments Return {A} a.
Arguments Panic {A}.
Arguments Header {A} op k.
Arguments WriteHeader {A} status k.
Arguments Write {A} buf k.
Arguments Log {A} call k.
Arguments Assign {A} r k.

Fixpoint bind {A B} (p : prog A) (f : A -> prog B) : prog B :=
  match p with
  | Return a => f a
  | Panic => Panic
  | Header op k => Header op (bind k f)
  | WriteHeader status k => WriteHeader status (bind k f)
  | Write buf k => Write buf (fun err => bind (k err) f)
  | Log call k => Log call (bind k f)
  | Assign r k => Assign r (bind k f)
  end.

(** A run on the request object [r], with the fields the object holds
    when the run returns: what a caller reads from its pointer after
    [h.ServeHTTP(w, r)]. *)
Fixpoint tracked {A} (p : prog A) (r : Request) : prog (A * Request) :=
  match p with
  | Return a => Return (a, r)
  | Panic => Panic
  | Header op k => Header op (tracked k r)
  | WriteHeader status k => WriteHeader status (tracked k r)
  | Write buf k => Write buf (fun err => tracked (k err) r)
  | Log call k => Log call (tracked k r)
  | Assign r' k => Assign r' (tracked k r')
  end.

(** A run on a copy of the request made for it: its assignments go to the
    copy and do not reach the object of the caller. *)
Fixpoint onCopy {A} (p : prog A) : prog A :=
  match p with
  | Return a => Return a
  | Panic => Panic
  | Header op k => Header op (onCopy k)
  | WriteHeader status k => WriteHeader status (onCopy k)
  | Write buf k => Write buf (fun err => onCopy (k err))
  | Log call k => Log call (onCopy k)
  | Assign _ k => onCopy k
  end.

Definition Handler : Type := Request -> prog unit.

Definition StatusNotFound : Z := 404.

(** [http.Error(w, error, code)]: a plain-text reply. *)
Definition Error (error : string) (code : Z) : prog unit :=
  Header (Del "Content-Length")
    (Header (Set_ "Content-Type" "text/plain; charset=utf-8")
       (Header (Set_ "X-Content-Type-Options" "nosniff")
          (WriteHeader code
             (Write (error +:+ String LF EmptyString) (fun _ => Return tt))))).

(** [http.NotFound(w, r)]. *)
Definition NotFound (r : Request) : prog unit :=
  Error "404 page not found" StatusNotFound.

(** [strings.TrimPrefix(s, prefix)]. *)
Fixpoint TrimPrefix_go (s prefix : string) : option string :=
  match prefix, s with
  | EmptyString, _ => Some s
  | String p prefix', String c s' =>
      if Ascii.eqb p c then TrimPrefix_go s' prefix' else None
  | String _ _, EmptyString => None
  end.

Definition TrimPrefix (s prefix : string) : string :=
  match TrimPrefix_go s prefix with
  | Some rest => rest
  | None => s
  end.

(** [http.StripPrefix(prefix, h)]: [h] is called on [r2], a new request
    with a new URL. *)
Definition StripPrefix (prefix : string) (h : Handler) : Handler :=
  if String.eqb prefix "" then h
  else fun r =>
    let p := TrimPrefix (Path (Url r)) prefix in
    let rp := TrimPrefix (RawPath (Url r)) prefix in
    if (String.length p <? String.length (Path (Url r)))%nat
       && (String.eqb (RawPath (Url r)) ""
           || (String.length rp <? String.length (RawPath (Url r)))%nat)
    then
      let r2 :=
        mkRequest (Method r) (Proto r) (RemoteAddr r)
                  (mkURL p rp (RawQuery (Url r))) in
      onCopy (h r2)
    else NotFound r.

(** *** Running a handler against a connection

    What the client and the log see. The status and the header are fixed
    by the first [WriteHeader] (or by the first [Write], as 200); header
    calls after that change nothing. [net] says which writes the
    connection refuses, given what was sent so far. An assignment to the
    request reaches neither the client nor the log. *)

Record world : Type := mkWorld {
  status : option Z;
  header : list headerOp;
  body : string;
  log : list logCall;
  writeHeaderCalls : list Z
}.

Definition fresh : world := mkWorld None [] "" [] [].

Definition fixStatus (code : Z) (w : world) : world :=
  match status w with
  | Some _ => w
  | None => mkWorld (Some code) (header w) (body w) (log w) (writeHeaderCalls w)
  end.

Definition Network : Type := string -> string -> option error.

(** A connection that accepts every write. *)
Definition reliable : Network := fun _ _ => None.

Fixpoint run {A} (net : Network) (p : prog A) (w : world) : world * option A :=
  match p with
  | Return a => (w, Some a)
  | Panic => (w, None)
  | Header op k =>
      run net k
        match status w with
        | Some _ => w
        | None =>
            mkWorld None (header w ++ [op]) (body w) (log w)
                    (writeHeaderCalls w)
        end
  | WriteHeader code k =>
      let w := fixStatus code w in
      run net k
        (mkWorld (status w) (header w) (body w) (log w)
                 (writeHeaderCalls w ++ [code]))
  | Write buf k =>
      let w := fixStatus 200 w in
      match net (body w) buf with
      | Some err => run net (k (Some err)) w
      | None =>
          run net (k None)
            (mkWorld (status w) (header w) (body w +:+ buf) (log w)
                     (writeHeaderCalls w))
      end
  | Log call k =>
      run net k
        (mkWorld (status w) (header w) (body w) (log w ++ [call])
                 (writeHeaderCalls w))
  | Assign _ k => run net k w
  end.

(** The reply as the client receives it; a handler that returns without
    writing anything has answered 200 with an empty body. *)
Record Response : Type := mkResponse {
  respStatus : Z;
  respHeader : list headerOp;
  respBody : string
}.

Definition response (w : world) : Response :=
  mkResponse (default 200%Z (status w)) (header w) (body w).

(** The reply of a handler run on a fresh connection, and whether the run
    ended in a panic. *)
Definition reply (net : Network) (p : prog unit) : Response * bool :=
  let '(w, res) := run net p fresh in
  (response w, bool_decide (res = None)).

End http.

(** What [asset-server.go] uses of the Go library and of the rest of the
    repository, and does not declare. The server is stated for every
    choice of them. *)
Class ServerEnv : Type := {
  (** [filepath.Join(a, b)]. *)
  filepath_Join : string -> string -> string;
  (** [fs.Sub(fsys, dir)]. *)
  fs_Sub : fs.FS -> string -> result fs.FS;
  (** [http.FileServer(http.FS(fsys))]; it may assign to the request. *)
  http_FileServer : fs.FS -> http.Handler;
  (** [u.RequestURI()]. *)
  RequestURI : http.URL -> string;
  (** [embedFiles.ReadFile(name)]: the embedded [react] directory. *)
  embedFiles_ReadFile : string -> result string;
  (** [correctEmbedFS(fsys, dir)], declared in another file. *)
  correctEmbedFS : fs.FS -> string -> result fs.FS
}.

(** Modelled from the spec: the declaration of the [VitGo] struct is not in
    [asset-server.go]; the record has the fields the file reads (the
    store, the project path, the production output subdirectory, the
    active environment and the debug flag). *)
Module VitGo.
Record t : Type := mk {
  DistFS : fs.FS;
  JSProjectPath : string;
  AssetPath : string;
  Environment : string;
  Debug : bool
}.

(** The same server with the debug flag set to [debug]. *)
Definition set_Debug (debug : bool) (vg : t) : t :=
  mk (DistFS vg) (JSProjectPath vg) (AssetPath vg) (Environment vg) debug.
End VitGo.

(** [err.Error()] as the logger prints it. *)
Definition error_text (err : error) : string :=
  match err with
  | ErrNotExist path => "open " +:+ path +:+ ": file does not exist"
  | ErrInvalid path => "open " +:+ path +:+ ": invalid argument"
  | ErrPermission path => "open " +:+ path +:+ ": permission denied"
  | ErrMsg msg => msg
  end.

Section Server.
Context `{ServerEnv}.

(** *** [wrapperFS]: no directory without an index file *)

(** [wrapperFS.Open]: the result, and the handles it called [Close] on. *)
Definition wrapperFS_Open (wrpr : fs.FS) (path : string)
  : result fs.File * list fs.File :=
  match fs.Open wrpr path with
  | Err err => (Err err, [])
  | Ok f =>
      match fs.Stat f with
      | Err err => (Err err, [])
      | Ok s =>
          if fs.IsDir s then
            let index := filepath_Join path "index.html" in
            match fs.Open wrpr index with
            | Err err =>
                match fs.Close f with
                | Some closeErr => (Err closeErr, [f])
                | None => (Err err, [f])
                end
            | Ok _ => (Ok f, [])
            end
          else (Ok f, [])
      end
  end.

(** The value [wrapperFS{FS: target}] as an [fs.FS]: its only method is
    [Open], and its dynamic type is not [embed.FS]. *)
Definition wrapperFS (target : fs.FS) : fs.FS :=
  fs.mkFS false (fun path => fst (wrapperFS_Open target path)).

(** *** [serveOneFile] *)

Definition serveOneFile (r : http.Request) (data ctype : string)
  : http.prog unit :=
  http.Header (http.Add "Content-Type" ctype)
    (http.Write data (fun err =>
       match err with
       | Some err =>
           http.Log (http.Println ["could not write file:"; error_text err])
                    (http.Return tt)
       | None => http.Return tt
       end)).

(** *** [WriterWrapper] and [logRequest] *)

(** A handler run against [NewRespWriter(w)]: [WriteHeader] records the
    status in [RetCode] and forwards; [Header] and [Write] forward. The
    result carries the final [RetCode]. *)
Fixpoint serveWrapped {A} (p : http.prog A) (RetCode : Z) : http.prog (A * Z) :=
  match p with
  | http.Return a => http.Return (a, RetCode)
  | http.Panic => http.Panic
  | http.Header op k => http.Header op (serveWrapped k RetCode)
  | http.WriteHeader status k => http.WriteHeader status (serveWrapped k status)
  | http.Write buf k => http.Write buf (fun err => serveWrapped (k err) RetCode)
  | http.Log call k => http.Log call (serveWrapped k RetCode)
  | http.Assign r k => http.Assign r (serveWrapped k RetCode)
  end.

Definition accessLogFormat : string := "%s - %s %s %s (%d)".

Definition accessLine (r : http.Request) (RetCode : Z) : http.logCall :=
  let escapedReqURI := strings_Remove (RequestURI (http.Url r)) LF in
  let escapedReqURI := strings_Remove escapedReqURI CR in
  http.Printf accessLogFormat
    [http.ArgS (http.RemoteAddr r); http.ArgS (http.Proto r);
     http.ArgS (http.Method r); http.ArgS escapedReqURI; http.ArgD RetCode].

(** [logRequest]: the deferred function reads [r.URL], [r.Method] and the
    other fields after [next.ServeHTTP(ww, r)] has returned, from the
    request object [next] was given. *)
Definition logRequest (next : http.Handler) : http.Handler :=
  fun r =>
    http.bind (serveWrapped (http.tracked (next r) r) 200)
      (fun '((_, r'), RetCode) =>
         http.Log (accessLine r' RetCode) (http.Return tt)).

(** *** [guardedFileServer] *)

(** The loop over [parts]: is some stem non-empty with first byte [.]? *)
Fixpoint hiddenStem (parts : list string) : bool :=
  match parts with
  | [] => false
  | stem :: rest =>
      if (0 <? String.length stem)%nat && String.eqb (String.substring 0 1 stem) "."
      then true
      else hiddenStem rest
  end.

Definition logEntries (names : list string) (k : http.prog unit)
  : http.prog unit :=
  foldr (fun name k => http.Log (http.Println [name]) k) k names.

(** Lines 104-123: the environment branch. *)
Definition dispatch (vg : VitGo.t) (serveDir : fs.FS) : http.Handler :=
  fun r =>
    let stripPrefix := "/" in
    if String.eqb (VitGo.Environment vg) "production" then
      match fs_Sub serveDir (VitGo.AssetPath vg) with
      | Err _ => http.WriteHeader http.StatusNotFound (http.Return tt)
      | Ok newDir => logRequest (http_FileServer newDir) r
      end
    else
      http.StripPrefix stripPrefix (logRequest (http_FileServer serveDir)) r.

(** Lines 86-102: the debug listing, then the rest of the handler. *)
Definition debugListing (vg : VitGo.t) (serveDir : fs.FS) (r : http.Request)
    (rest : http.prog unit) : http.prog unit :=
  if VitGo.Debug vg then
    let escapedURLPath := strings_Remove (http.Path (http.Url r)) LF in
    let escapedURLPath := strings_Remove escapedURLPath CR in
    http.Log (http.Println ["entered FS"; escapedURLPath])
      match fs.ReadDir serveDir "." with
      | Err err =>
          http.Log (http.Println ["could not read the asset dir"; error_text err])
            (http.NotFound r)
      | Ok dir => logEntries dir rest
      end
  else rest.

Definition guardedFileServer (vg : VitGo.t) (serveDir : fs.FS) : http.Handler :=
  fun r =>
    let stripPrefix := "/" in
    let prefixLen := String.length stripPrefix in
    match slice_from (http.Path (http.Url r)) prefixLen with
    | None => http.Panic
    | Some rest =>
        let parts := strings_Split rest "/" in
        if hiddenStem parts then http.NotFound r
        else if (0 <? List.length parts)%nat
                && String.eqb (last_part parts) "preamble.js"
        then
          match embedFiles_ReadFile "react/preamble.js" with
          | Err err =>
              http.Log (http.Println ["could not load preamble:"; error_text err])
                (http.NotFound r)
          | Ok bytes => serveOneFile r bytes "application/javascript"
          end
        else debugListing vg serveDir r (dispatch vg serveDir r)
    end.

(** [FileServer]: the handler over the guarded store, or the error of
    [correctEmbedFS]. *)
Definition FileServer (vg : VitGo.t) : result http.Handler :=
  match correctEmbedFS (VitGo.DistFS vg) (VitGo.JSProjectPath vg) with
  | Err err => Err err
  | Ok target =>
      let wrapped := wrapperFS target in
      Ok (guardedFileServer vg wrapped)
  end.

End Server.


(** ** Specification-side definitions

    What the specification says in its own words, to be compared with the
    code above. *)

(** The lookup the loop makes for one candidate: svelte among the
    development dependencies, every other among the runtime ones. *)
Definition candidateLookup (pkgJSON : PackageJSON.t) (pkg : string)
  : option string :=
  if String.eqb pkg "svelte"
  then PackageJSON.DevDependencies pkgJSON !! pkg
  else PackageJSON.Dependencies pkgJSON !! pkg.

(** The fixed, ordered list of frameworks of the specification. *)
Definition frameworks : list string :=
  ["vue"; "react"; "preact"; "svelte"; "lit"].

(** The first framework of the fixed list that the manifest declares. *)
Definition firstMatch (pkgJSON : PackageJSON.t) : option string :=
  List.find (fun pkg => bool_decide (is_Some (candidateLookup pkgJSON pkg)))
            frameworks.

(** The entry point as a table over the framework and the typed flag. *)
Definition entryPointOf (framework : string) (typed : bool) : string :=
  if bool_decide (framework = "vue" \/ framework = "svelte") then
    if typed then "src/main.ts" else "src/main.js"
  else if bool_decide (framework = "react" \/ framework = "preact") then
    if typed then "src/main.tsx" else "src/main.jsx"
  else if bool_decide (framework = "lit") then ""
  else if typed then "src/main.ts" else "main.js".

(** The grammar of the version pattern: digit runs and leading carets. *)
Fixpoint allDigits (s : string) : bool :=
  match s with
  | EmptyString => true
  | String c s' => SemVer.isDigit c && allDigits s'
  end.

Definition digitRun (s : string) : Prop := s <> "" /\ allDigits s = true.

(** The port the specification gives for a build-tool major version. *)
Definition portFor `{ResolverEnv} (version : string) : string :=
  if bool_decide (version = "2") then DEFAULT_PORT_V2 else DEFAULT_PORT_V3.


(** A segment is hidden when it begins with a dot. *)
Definition hidden (stem : string) : Prop :=
  exists rest, stem = String "." rest.

#[global] Instance hidden_dec (stem : string) : Decision (hidden stem).
Proof.
  destruct stem as [|c rest]; [right; intros [? ?]; discriminate|].
  destruct (decide (c = "."%char)) as [->|Hne].
  - left. eexists. reflexivity.
  - right. intros [? Heq]. injection Heq as Hc _. contradiction.
Defined.

(** A text with carriage returns and line feeds removed. *)
Definition withoutCRLF (s : string) : string :=
  string_of_list_ascii
    (filter (fun c => c <> CR /\ c <> LF) (list_ascii_of_string s)).

(** Access-log lines are the [Printf] calls with the access format. *)
Definition isAccessLine (call : http.logCall) : bool :=
  match call with
  | http.Printf format _ => String.eqb format "%s - %s %s %s (%d)"
  | http.Println _ => false
  end.

Definition accessLines (calls : list http.logCall) : list http.logCall :=
  List.filter isAccessLine calls.

Fixpoint carets (n : nat) : string :=
  match n with
  | O => EmptyString
  | S n' => String SemVer.caret (carets n')
  end.

(** The candidates a walk over [pkgs] looks at: every one up to and
    including the first that the manifest declares. *)
Fixpoint examinedOf (pkgJSON : PackageJSON.t) (pkgs : list string)
  : list string :=
  match pkgs with
  | [] => []
  | pkg :: rest =>
      if bool_decide (is_Some (candidateLookup pkgJSON pkg)) then [pkg]
      else pkg :: examinedOf pkgJSON rest
  end.

Definition examined (pkgJSON : PackageJSON.t) : list string :=
  examinedOf pkgJSON frameworks.

(** The configuration once the project root has its default: the first
    step of both passes. *)
Definition projectRootDefaulted (vc : ViteConfig.t) : ViteConfig.t :=
  if String.eqb (ViteConfig.JSProjectPath vc) ""
  then ViteConfig.set_JSProjectPath "frontend" vc else vc.

(** "Set only if still empty". *)
Definition fillIfEmpty (current value : string) : string :=
  if bool_decide (current = "") then value else current.

(** The development pass as the specification describes it: every field
    filled if empty, the version from the detected major version, the
    port from the version, and the detected profile stored. *)
Definition resolvedDevelopment `{ResolverEnv} (vc : ViteConfig.t)
    (detected : JSAppParams.t) : ViteConfig.t :=
  let version :=
    fillIfEmpty (ViteConfig.ViteVersion vc) (JSAppParams.ViteMajorVer detected) in
  ViteConfig.mk (ViteConfig.FS vc) (ViteConfig.Environment vc)
    (fillIfEmpty (ViteConfig.JSProjectPath vc) "frontend")
    (ViteConfig.AssetsPath vc)
    version
    (fillIfEmpty (ViteConfig.Platform vc) (JSAppParams.PackageType detected))
    (fillIfEmpty (ViteConfig.EntryPoint vc) (JSAppParams.EntryPoint detected))
    (fillIfEmpty (ViteConfig.URLPrefix vc) "/src/")
    (fillIfEmpty (ViteConfig.DevServerPort vc) (portFor version))
    (fillIfEmpty (ViteConfig.DevServerDomain vc) "localhost")
    (ViteConfig.HTTPS vc)
    (Some detected).

Definition resolvedProduction (vc : ViteConfig.t) : ViteConfig.t :=
  ViteConfig.mk (ViteConfig.FS vc) (ViteConfig.Environment vc)
    (fillIfEmpty (ViteConfig.JSProjectPath vc) "frontend")
    (fillIfEmpty (ViteConfig.AssetsPath vc) "dist")
    (ViteConfig.ViteVersion vc) (ViteConfig.Platform vc)
    (ViteConfig.EntryPoint vc)
    (fillIfEmpty (ViteConfig.URLPrefix vc) "/assets/")
    (ViteConfig.DevServerPort vc) (ViteConfig.DevServerDomain vc)
    (ViteConfig.HTTPS vc) (ViteConfig.DevDefaults vc).

(** The settings an operator can supply are kept by a pass: a text
    setting that was not empty, the flag, the environment and the store
    are the same afterwards. The detected profile is not among them. *)
Definition keepsOperatorSettings (before after : ViteConfig.t) : Prop :=
  ViteConfig.FS after = ViteConfig.FS before /\
  ViteConfig.Environment after = ViteConfig.Environment before /\
  ViteConfig.HTTPS after = ViteConfig.HTTPS before /\
  (ViteConfig.JSProjectPath before <> "" ->
   ViteConfig.JSProjectPath after = ViteConfig.JSProjectPath before) /\
  (ViteConfig.AssetsPath before <> "" ->
   ViteConfig.AssetsPath after = ViteConfig.AssetsPath before) /\
  (ViteConfig.ViteVersion before <> "" ->
   ViteConfig.ViteVersion after = ViteConfig.ViteVersion before) /\
  (ViteConfig.Platform before <> "" ->
   ViteConfig.Platform after = ViteConfig.Platform before) /\
  (ViteConfig.EntryPoint before <> "" ->
   ViteConfig.EntryPoint after = ViteConfig.EntryPoint before) /\
  (ViteConfig.URLPrefix before <> "" ->
   ViteConfig.URLPrefix after = ViteConfig.URLPrefix before) /\
  (ViteConfig.DevServerPort before <> "" ->
   ViteConfig.DevServerPort after = ViteConfig.DevServerPort before) /\
  (ViteConfig.DevServerDomain before <> "" ->
   ViteConfig.DevServerDomain after = ViteConfig.DevServerDomain before).

(** A request passes the guard when its path can be stripped of the mount
    prefix, no segment of the rest is hidden and the last segment is not
    the special support file. *)
Definition guardPasses (r : http.Request) : bool :=
  match slice_from (http.Path (http.Url r)) 1 with
  | Some rest =>
      let parts := strings_Split rest "/" in
      negb (bool_decide (Exists hidden parts))
      && negb (bool_decide (last_part parts = "preamble.js"))
  | None => false
  end.

(** What the debug configuration adds to the log when the listing of the
    guarded root succeeds. *)
Definition debugLog (vg : VitGo.t) (serveDir : fs.FS) (r : http.Request)
  : list http.logCall :=
  if VitGo.Debug vg then
    match fs.ReadDir serveDir "." with
    | Ok names =>
        http.Println ["entered FS"; withoutCRLF (http.Path (http.Url r))]
        :: map (fun name => http.Println [name]) names
    | Err _ => []
    end
  else [].

(** A text without its leading slash, when it has one. *)
Definition stripSlash (s : string) : option string :=
  match s with
  | String c s' => if Ascii.eqb c "/" then Some s' else None
  | EmptyString => None
  end.

(** The store and the request the environment branch hands to the file
    server: the output subdirectory and the request as it came in
    production, and else the guarded root and the request with the
    leading slash of its path stripped; nothing when the subdirectory
    cannot be derived or the path has no leading slash. *)
Definition target `{ServerEnv} (vg : VitGo.t) (serveDir : fs.FS)
    (r : http.Request) : option (fs.FS * http.Request) :=
  if bool_decide (VitGo.Environment vg = "production") then
    match fs_Sub serveDir (VitGo.AssetPath vg) with
    | Ok newDir => Some (newDir, r)
    | Err _ => None
    end
  else
    match stripSlash (http.Path (http.Url r)) with
    | Some p =>
        if bool_decide (http.RawPath (http.Url r) = "") then
          Some (serveDir,
                http.mkRequest (http.Method r) (http.Proto r)
                  (http.RemoteAddr r)
                  (http.mkURL p "" (http.RawQuery (http.Url r))))
        else
          match stripSlash (http.RawPath (http.Url r)) with
          | Some rp =>
              Some (serveDir,
                    http.mkRequest (http.Method r) (http.Proto r)
                      (http.RemoteAddr r)
                      (http.mkURL p rp (http.RawQuery (http.Url r))))
          | None => None
          end
    | None => None
    end.

(** When a request is handed to the file server: past the guard and past
    the debug listing. *)
Definition served `{ServerEnv} (vg : VitGo.t) (serveDir : fs.FS)
    (r : http.Request) : option (fs.FS * http.Request) :=
  if guardPasses r
     && (negb (VitGo.Debug vg) || is_ok (fs.ReadDir serveDir "."))
  then target vg serveDir r
  else None.

(** What the guard answers by itself to a request that does not pass it:
    not-found for a hidden segment, the embedded support file for its
    name (not-found when it cannot be loaded); a path too short to strip
    ends the run in a panic. *)
Definition answeredByGuard `{ServerEnv} (r : http.Request) : http.prog unit :=
  match slice_from (http.Path (http.Url r)) 1 with
  | None => http.Panic
  | Some rest =>
      if bool_decide (Exists hidden (strings_Split rest "/"))
      then http.NotFound r
      else
        match embedFiles_ReadFile "react/preamble.js" with
        | Err err =>
            http.Log (http.Println ["could not load preamble:"; error_text err])
              (http.NotFound r)
        | Ok bytes => serveOneFile r bytes "application/javascript"
        end
  end.

(** A connection with more lines in the log, and a fresh connection with
    a given log. *)
Definition appendLog (calls : list http.logCall) (w : http.world)
  : http.world :=
  http.mkWorld (http.status w) (http.header w) (http.body w)
               (http.log w ++ calls) (http.writeHeaderCalls w).

Definition addLog (call : http.logCall) (w : http.world) : http.world :=
  appendLog [call] w.

Definition logged (calls : list http.logCall) : http.world :=
  appendLog calls http.fresh.

(** What a wrapped handler's run adds to the run of the handler: the
    access line of the request as the handler left it, with the status of
    the last [WriteHeader] call, 200 when there was none, after
    everything the handler did; nothing when the handler panicked. *)
Definition withAccessLine `{ServerEnv}
    (downstream : http.world * option (unit * http.Request))
  : http.world * option unit :=
  match downstream with
  | (w, Some (_, r')) =>
      (addLog (accessLine r' (List.last (http.writeHeaderCalls w) 200%Z)) w,
       Some tt)
  | (w, None) => (w, None)
  end.

(** What the client can tell of a connection: everything but the log. *)
Definition visible (w : http.world)
  : option Z * list http.headerOp * string * list Z :=
  (http.status w, http.header w, http.body w, http.writeHeaderCalls w).

(** A version text: carets, then three digit runs with dots between. *)
Definition versionText (n : nat) (major minor patch : string) : string :=
  carets n +:+ major +:+ String SemVer.dot (minor +:+ String SemVer.dot patch).

(** The version field of a profile that belongs to a framework name. *)
Definition versionFieldOf (framework : string) (out : JSAppParams.t) : string :=
  if bool_decide (framework = "vue") then JSAppParams.VueVersion out
  else if bool_decide (framework = "react") then JSAppParams.ReactVersion out
  else if bool_decide (framework = "preact") then JSAppParams.PreactVersion out
  else if bool_decide (framework = "svelte") then JSAppParams.SvelteVersion out
  else if bool_decide (framework = "lit") then JSAppParams.LitVersion out
  else "".

(** Where the development pass reads the manifest: under the project
    root (after its default) in an embedded store, at the root of any
    other store. *)
Definition manifestPath (vc : ViteConfig.t) : string :=
  (if fs.isEmbedFS (ViteConfig.FS vc)
   then fillIfEmpty (ViteConfig.JSProjectPath vc) "frontend" +:+ "/"
   else "")
  +:+ "package.json".

(** A run that starts with the given log calls. *)
Definition logPrefix (calls : list http.logCall) (k : http.prog unit)
  : http.prog unit :=
  foldr (fun call k => http.Log call k) k calls.

(** ** Example inputs *)

Module Examples.

Definition dq : string := String (Ascii.ascii_of_nat 34) EmptyString.
Definition jstr (s : string) : string := dq +:+ s +:+ dq.

(** A JSON object of string members, and a manifest text, as they are
    written in a [package.json]. *)
Definition jsonObject (members : list (string * string)) : string :=
  "{" +:+ String.concat ","
            (map (fun '(k, v) => jstr k +:+ ":" +:+ v) members) +:+ "}".

Definition jsonStrings (members : list (string * string)) : string :=
  jsonObject (map (fun '(k, v) => (k, jstr v)) members).

Definition manifestText (deps devDeps : list (string * string)) : string :=
  jsonObject [("dependencies", jsonStrings deps);
              ("devDependencies", jsonStrings devDeps)].

Definition manifest (deps devDeps : list (string * string)) : PackageJSON.t :=
  PackageJSON.mk "" "" "" ∅ (list_to_map deps) (list_to_map devDeps).

(** The manifests of the examples, as dependency lists. *)
Definition reactTyped : list (string * string) * list (string * string) :=
  ([("react", "18.2.0")], [("vite", "^4.1.0"); ("typescript", "1.0.0")]).
Definition vueAndReact : list (string * string) * list (string * string) :=
  ([("react", "18.2.0"); ("vue", "3.2.45")], [("vite", "^4.1.0")]).
Definition noVite : list (string * string) * list (string * string) :=
  ([("react", "18.2.0")], [("typescript", "1.0.0")]).
Definition viteLatest : list (string * string) * list (string * string) :=
  ([], [("vite", "latest")]).
Definition viteTwo : list (string * string) * list (string * string) :=
  ([], [("vite", "^2.9.15")]).
Definition svelteAndLit : list (string * string) * list (string * string) :=
  ([("lit", "2.6.1")], [("vite", "^4.1.0"); ("svelte", "3.55.0")]).

Definition knownManifests
  : list (list (string * string) * list (string * string)) :=
  [reactTyped; vueAndReact; noVite; viteLatest; viteTwo; svelteAndLit].

(** A decoder for the examples: it decodes the texts of the manifests
    above and refuses every other text. *)
Definition decode (buf : string) : result PackageJSON.t :=
  match List.find (fun m => String.eqb (manifestText m.1 m.2) buf)
                  knownManifests with
  | Some m => Ok (manifest m.1 m.2)
  | None => Err (ErrMsg "unexpected end of JSON input")
  end.

Definition regularFile (data : string) : fs.File :=
  fs.mkFile (Ok (fs.mkFileInfo false)) None (Ok data) None.

Definition directory (names : list string) (closeErr : option error) : fs.File :=
  fs.mkFile (Ok (fs.mkFileInfo true)) closeErr
            (Err (ErrMsg "is a directory")) (Some (Ok names)).

(** A directory tree given by its regular files and its directories. *)
Definition tree (files : list (string * string))
    (dirs : list (string * fs.File)) : fs.FS :=
  fs.mkFS false (fun path =>
    match List.find (fun e => String.eqb e.1 path) files with
    | Some e => Ok (regularFile e.2)
    | None =>
        match List.find (fun e => String.eqb e.1 path) dirs with
        | Some e => Ok e.2
        | None => Err (ErrNotExist path)
        end
    end).

(** A project root that holds one manifest. *)
Definition project (m : list (string * string) * list (string * string)) : fs.FS :=
  tree [("package.json", manifestText m.1 m.2)]
       [(".", directory ["package.json"] None)].

(** A tree with a script and no index file at its root. *)
Definition assets : fs.FS :=
  tree [("app.js", "console.log(1)")] [(".", directory ["app.js"] None)].

(** A tree with an index file and a script at its root, and an output
    subdirectory with a bundle. *)
Definition site : fs.FS :=
  tree [("index.html", "<html></html>"); ("app.js", "console.log(1)");
        ("dist/bundle.js", "console.log(2)")]
       [(".", directory ["app.js"; "dist"; "index.html"] None);
        ("dist", directory ["bundle.js"] None)].

(** A tree whose directory [img] has no index file and fails to close. *)
Definition flaky : fs.FS :=
  tree [("index.html", "<html></html>")]
       [(".", directory ["img"; "index.html"] None);
        ("img", directory [] (Some (ErrMsg "close img: input/output error")))].

#[export] Instance resolverEnv : ResolverEnv := {|
  json_Unmarshal := decode;
  DEFAULT_VITE_VERSION := "3";
  DEFAULT_PORT_V2 := "3000";
  DEFAULT_PORT_V3 := "5173"
|}.

(** [fs.ValidPath] on ASCII names. *)
Definition validPath (name : string) : bool :=
  String.eqb name "."
  || forallb (fun elem => negb (String.eqb elem "" || String.eqb elem "."
                                || String.eqb elem ".."))
             (strings_Split name "/").

(** Joining two clean slash-separated paths. *)
Definition join (a b : string) : string :=
  if String.eqb a "." || String.eqb a "" then b
  else if String.eqb b "." || String.eqb b "" then a
  else a +:+ "/" +:+ b.

Definition sub (fsys : fs.FS) (dir : string) : result fs.FS :=
  if negb (validPath dir) then Err (ErrInvalid dir)
  else if String.eqb dir "." then Ok fsys
  else Ok (fs.mkFS false (fun name =>
             if validPath name then fs.Open fsys (join dir name)
             else Err (ErrInvalid name))).

(** A file server reduced to what the examples need: the bytes of a
    regular file with status 200, not-found for everything else. *)
Definition serveFile (fsys : fs.FS) (upath : string) (r : http.Request)
  : http.prog unit :=
  let name :=
    if String.eqb upath "/" then "." else http.TrimPrefix upath "/" in
  match fs.Open fsys name with
  | Err _ => http.NotFound r
  | Ok f =>
      match fs.Stat f, fs.ReadAll f with
      | Ok info, Ok data =>
          if fs.IsDir info then http.NotFound r
          else http.WriteHeader 200 (http.Write data (fun _ => http.Return tt))
      | _, _ => http.NotFound r
      end
  end.

(** As the library's file server does, it first puts a leading slash
    before a path that has none, and stores that path in the request. *)
Definition fileServer (fsys : fs.FS) : http.Handler :=
  fun r =>
    let upath := http.Path (http.Url r) in
    match http.TrimPrefix_go upath "/" with
    | Some _ => serveFile fsys upath r
    | None =>
        let upath := "/" +:+ upath in
        let r :=
          http.mkRequest (http.Method r) (http.Proto r) (http.RemoteAddr r)
            (http.mkURL upath (http.RawPath (http.Url r))
                        (http.RawQuery (http.Url r))) in
        http.Assign r (serveFile fsys upath r)
    end.

Definition requestURI (u : http.URL) : string :=
  (if String.eqb (http.Path u) "" then "/" else http.Path u)
  +:+ (if String.eqb (http.RawQuery u) "" then ""
       else "?" +:+ http.RawQuery u).

#[export] Instance serverEnv : ServerEnv := {|
  filepath_Join := join;
  fs_Sub := sub;
  http_FileServer := fileServer;
  RequestURI := requestURI;
  embedFiles_ReadFile := fun name =>
    if String.eqb name "react/preamble.js" then Ok "/* preamble */"
    else Err (ErrNotExist name);
  correctEmbedFS := fun fsys _ => Ok fsys
|}.

(** The asset handler over a store, as [FileServer] builds it. *)
Definition handler (environment : string) (debug : bool) (store : fs.FS)
  : http.Handler :=
  guardedFileServer (VitGo.mk store "frontend" "dist" environment debug)
                    (wrapperFS store).

Definition GET (path : string) : http.Request :=
  http.mkRequest "GET" "HTTP/1.1" "192.0.2.7:51234" (http.mkURL path "" "").

Definition server (environment : string) (debug : bool) (store : fs.FS)
  : VitGo.t :=
  VitGo.mk store "frontend" "dist" environment debug.

(** An empty configuration over a store, as an operator creates it. *)
Definition emptyConfig (store : fs.FS) : ViteConfig.t :=
  ViteConfig.mk store "development" "" "" "" "" "" "" "" "" false None.

(** A profile an operator wrote by hand into the configuration. *)
Definition handWritten : JSAppParams.t :=
  JSAppParams.mk "" "4.1.0" "4" "solid" "1" "src/index.tsx" true false
                 "" "" "" "" "".

Definition preset (store : fs.FS) : ViteConfig.t :=
  ViteConfig.mk store "development" "" "" "" "" "" "" "" "" false
                (Some handWritten).

(** A tree whose output subdirectory holds a dot file beside the bundle. *)
Definition deployed : fs.FS :=
  tree [("index.html", "<html></html>"); ("dist/bundle.js", "console.log(2)");
        ("dist/.env", "SECRET=1")]
       [(".", directory ["dist"; "index.html"] None);
        ("dist", directory [".env"; "bundle.js"] None)].

(** The same tree as an embedded store. *)
Definition embedded (store : fs.FS) : fs.FS :=
  fs.mkFS true (fs.Open store).

End Examples.


(** * Part II: theorems *)

#[local] Arguments String.append !s1 s2 / : simpl nomatch.

(** ** The version pattern *)

Section SemVerFacts.
Import SemVer.

Lemma length_append (s t : string) :
  String.length (s +:+ t) = (String.length s + String.length t)%nat.
Proof. induction s as [|c s IH]; cbn; [reflexivity | now rewrite IH]. Qed.

Lemma append_assoc (s t u : string) : (s +:+ t) +:+ u = s +:+ (t +:+ u).
Proof. induction s as [|c s IH]; cbn; [reflexivity | now rewrite IH]. Qed.

Lemma append_neq_self (s : string) (c : ascii) (t : string) :
  s <> s +:+ String c t.
Proof.
  intros Heq. apply (f_equal String.length) in Heq.
  rewrite length_append in Heq. cbn in Heq. lia.
Qed.

Lemma spanDigits_sound (s ds rest : string) :
  spanDigits s = (ds, rest) -> s = ds +:+ rest /\ allDigits ds = true.
Proof.
  revert ds rest. induction s as [|c s IH]; intros ds rest; cbn.
  - intros [= <- <-]. now split.
  - destruct (isDigit c) eqn:Hc.
    + destruct (spanDigits s) as [ds' rest'] eqn:Hs. intros [= <- <-].
      destruct (IH ds' rest' eq_refl) as [-> Hd]. cbn. rewrite Hc, Hd. now split.
    + intros [= <- <-]. now split.
Qed.

Lemma spanDigits_stop (ds : string) (c : ascii) (rest : string) :
  allDigits ds = true -> isDigit c = false ->
  spanDigits (ds +:+ String c rest) = (ds, String c rest).
Proof.
  intros Hds Hc. induction ds as [|d ds IH]; cbn in *.
  - now rewrite Hc.
  - apply andb_prop in Hds as [Hd Hds]. rewrite Hd, (IH Hds). reflexivity.
Qed.

Lemma spanDigits_all (ds : string) :
  allDigits ds = true -> spanDigits ds = (ds, EmptyString).
Proof.
  intros Hds. induction ds as [|d ds IH]; cbn in *; [reflexivity|].
  apply andb_prop in Hds as [Hd Hds]. rewrite Hd, (IH Hds). reflexivity.
Qed.

Lemma digitsThenDot_sound (s d rest : string) :
  digitsThenDot s = Some (d, rest) ->
  s = d +:+ String dot rest /\ digitRun d.
Proof.
  unfold digitsThenDot. destruct (spanDigits s) as [ds r] eqn:Hs.
  apply spanDigits_sound in Hs as [-> Hds].
  destruct ds as [|d0 ds]; [discriminate|]. destruct r as [|c r]; [discriminate|].
  destruct (Ascii.eqb_spec c dot) as [->|]; [|discriminate].
  intros [= <- <-]. repeat split; [discriminate | exact Hds].
Qed.

Lemma digitsThenDot_complete (d rest : string) :
  digitRun d -> digitsThenDot (d +:+ String dot rest) = Some (d, rest).
Proof.
  intros [Hne Hd]. unfold digitsThenDot.
  rewrite (spanDigits_stop d dot rest Hd eq_refl).
  destruct d; [contradiction|]. reflexivity.
Qed.

Lemma dropCarets_carets (n : nat) (s : string) :
  (forall c s', s = String c s' -> c <> caret) ->
  dropCarets (carets n +:+ s) = s.
Proof.
  intros Hs. induction n as [|n IH]; cbn.
  - destruct s as [|c s']; [reflexivity|]. cbn.
    destruct (Ascii.eqb_spec c caret) as [->|]; [|reflexivity].
    now destruct (Hs caret s').
  - exact IH.
Qed.

Lemma dropCarets_sound (s : string) :
  exists n, s = carets n +:+ dropCarets s.
Proof.
  induction s as [|c s [n IH]].
  - now exists O.
  - cbn. destruct (Ascii.eqb_spec c caret) as [->|].
    + exists (S n). cbn. now rewrite <- IH.
    + now exists O.
Qed.

(** The matcher against the pattern read as a grammar: the text matches
    exactly when it is some carets followed by three digit runs with dots
    between them, and then the groups are the dotted triple and its
    first run. *)
Lemma FindStringSubmatch_iff (verStr : string) (ms : list string) :
  FindStringSubmatch verStr = Some ms <->
  exists n major minor patch,
    digitRun major /\ digitRun minor /\ digitRun patch /\
    let full := major +:+ String dot (minor +:+ String dot patch) in
    verStr = carets n +:+ full /\ ms = [verStr; full; major].
Proof.
  unfold FindStringSubmatch. split.
  - destruct (dropCarets_sound verStr) as [n Hn].
    destruct (digitsThenDot (dropCarets verStr)) as [[major r1]|] eqn:H1;
      [|discriminate].
    apply digitsThenDot_sound in H1 as [Hbody Hmajor].
    destruct (digitsThenDot r1) as [[minor r2]|] eqn:H2; [|discriminate].
    apply digitsThenDot_sound in H2 as [-> Hminor].
    destruct (spanDigits r2) as [patch r3] eqn:H3.
    apply spanDigits_sound in H3 as [-> Hpatch].
    destruct patch as [|p patch]; [discriminate|].
    destruct r3; [|discriminate].
    intros [= <-]. exists n, major, minor, (String p patch).
    assert (Hnil : forall s, s +:+ "" = s).
    { induction s as [|c s IH]; cbn; [reflexivity | now rewrite IH]. }
    rewrite Hnil in Hbody. cbn zeta.
    repeat split; try assumption; try discriminate.
    all: try (apply Hmajor || apply Hminor).
    + rewrite <- Hbody. exact Hn.
    + now rewrite Hbody.

  - intros (n & major & minor & patch & Hmajor & Hminor & Hpatch & Hv & ->).
    cbn zeta in Hv. subst verStr.
    rewrite dropCarets_carets.
    + rewrite (digitsThenDot_complete _ _ Hmajor).
      rewrite (digitsThenDot_complete _ _ Hminor).
      destruct Hpatch as [Hne Hp]. rewrite (spanDigits_all _ Hp).
      destruct patch; [contradiction|]. reflexivity.
    + intros c s' Heq Hc. subst c. destruct Hmajor as [Hne Hd].
      destruct major as [|m major]; [contradiction|].
      cbn in Heq. injection Heq as Hm _. subst m. cbn in Hd. discriminate.
Qed.

End SemVerFacts.


(** ** The manifest analyzer *)

Section AnalyzerFacts.

Lemma getSemVer_match (verStr : string) (ms : list string) :
  SemVer.FindStringSubmatch verStr = Some ms ->
  exists n major minor patch,
    digitRun major /\ digitRun minor /\ digitRun patch /\
    verStr = carets n +:+ major +:+ String SemVer.dot (minor +:+ String SemVer.dot patch) /\
    getSemVer verStr
      = (major, major +:+ String SemVer.dot (minor +:+ String SemVer.dot patch)).
Proof.
  intros Hm. unfold getSemVer. rewrite Hm.
  apply FindStringSubmatch_iff in Hm
    as (n & major & minor & patch & H1 & H2 & H3 & Hv & ->).
  exists n, major, minor, patch. repeat split; try apply H1; try apply H2;
    try apply H3. exact Hv.
Qed.

Lemma getSemVer_no_match (verStr : string) :
  SemVer.FindStringSubmatch verStr = None -> getSemVer verStr = ("", "").
Proof. intros Hm. unfold getSemVer. now rewrite Hm. Qed.

(** A matched major version is a non-empty digit run and differs from
    both the full version and the manifest text. *)
Lemma getSemVer_major (verStr : string) (ms : list string) :
  SemVer.FindStringSubmatch verStr = Some ms ->
  digitRun (getSemVer verStr).1 /\
  (getSemVer verStr).1 <> (getSemVer verStr).2 /\
  (getSemVer verStr).1 <> verStr.
Proof.
  intros Hm.
  destruct (getSemVer_match _ _ Hm)
    as (n & major & minor & patch & H1 & H2 & H3 & Hv & ->).
  cbn [fst snd]. split; [exact H1|]. split; [apply append_neq_self|].
  intros Heq. rewrite Hv in Heq. apply (f_equal String.length) in Heq.
  rewrite !length_append in Heq. cbn in Heq. lia.
Qed.

(** Everything the analysis fixes, in one statement. *)
Lemma analyze_shape (pkgJSON : PackageJSON.t) (out : JSAppParams.t) :
  analyzePackageJSON pkgJSON = Some out ->
  exists viteVers,
    PackageJSON.DevDependencies pkgJSON !! "vite" = Some viteVers /\
    JSAppParams.ViteMajorVer out = (getSemVer viteVers).1 /\
    JSAppParams.ViteVersion out = (getSemVer viteVers).2 /\
    JSAppParams.HasTypeScript out
      = bool_decide (is_Some (PackageJSON.DevDependencies pkgJSON !! "typescript")) /\
    JSAppParams.PackageType out = default "vanilla" (firstMatch pkgJSON) /\
    JSAppParams.IsVanilla out = bool_decide (firstMatch pkgJSON = None) /\
    JSAppParams.EntryPoint out
      = entryPointOf (JSAppParams.PackageType out) (JSAppParams.HasTypeScript out).
Proof.
  unfold analyzePackageJSON, firstMatch, frameworks, supported, candidateLookup.
  destruct (PackageJSON.DevDependencies pkgJSON !! "vite") as [viteVers|] eqn:Hvite;
    [|discriminate].
  intros Hout. exists viteVers. split; [reflexivity|].
  destruct (getSemVer viteVers) as [major full] eqn:Hsv.
  revert Hout. cbn [rangeSupported String.eqb Ascii.eqb Bool.eqb List.find].
  destruct (PackageJSON.DevDependencies pkgJSON !! "typescript") as [ts|];
    (destruct (PackageJSON.Dependencies pkgJSON !! "vue") as [v1|];
     [| destruct (PackageJSON.Dependencies pkgJSON !! "react") as [v2|];
      [| destruct (PackageJSON.Dependencies pkgJSON !! "preact") as [v3|];
       [| destruct (PackageJSON.DevDependencies pkgJSON !! "svelte") as [v4|];
        [| destruct (PackageJSON.Dependencies pkgJSON !! "lit") as [v5|]]]]]).
  all: cbn.
  all: repeat match goal with
         | |- context [getSemVer ?v] => destruct (getSemVer v)
         end.
  all: cbn.
  all: intros [= <-]; cbn.
  all: repeat split; reflexivity.
Qed.

(** The walk depends on the manifest only through the lookups of the
    candidates it examines. *)
Lemma rangeSupported_examined (pkgJSON pkgJSON' : PackageJSON.t)
    (pkgs : list string) (output : JSAppParams.t) :
  (forall pkg, pkg ∈ examinedOf pkgJSON pkgs ->
     candidateLookup pkgJSON' pkg = candidateLookup pkgJSON pkg) ->
  rangeSupported pkgJSON' pkgs output = rangeSupported pkgJSON pkgs output.
Proof.
  induction pkgs as [|pkg rest IH]; [reflexivity|].
  cbn [rangeSupported examinedOf].
  destruct (candidateLookup pkgJSON pkg) as [v|] eqn:Hc; cbn; intros Hagree.
  - assert (Hpkg : candidateLookup pkgJSON' pkg = Some v)
      by (rewrite <- Hc; apply Hagree; set_solver).
    unfold candidateLookup in Hc, Hpkg.
    destruct (String.eqb_spec pkg "svelte") as [->|Hne];
      now rewrite Hpkg, Hc.
  - assert (Hpkg : candidateLookup pkgJSON' pkg = None)
      by (rewrite <- Hc; apply Hagree; set_solver).
    unfold candidateLookup in Hc, Hpkg.
    destruct (String.eqb_spec pkg "svelte") as [->|Hne];
      rewrite Hpkg, Hc; apply IH; intros p Hp; apply Hagree; set_solver.
Qed.

Lemma analyze_examined (pkgJSON pkgJSON' : PackageJSON.t) :
  PackageJSON.DevDependencies pkgJSON' !! "vite"
    = PackageJSON.DevDependencies pkgJSON !! "vite" ->
  PackageJSON.DevDependencies pkgJSON' !! "typescript"
    = PackageJSON.DevDependencies pkgJSON !! "typescript" ->
  (forall pkg, pkg ∈ examined pkgJSON ->
     candidateLookup pkgJSON' pkg = candidateLookup pkgJSON pkg) ->
  analyzePackageJSON pkgJSON' = analyzePackageJSON pkgJSON.
Proof.
  intros Hvite Hts Hagree. unfold analyzePackageJSON.
  rewrite Hvite, Hts.
  destruct (PackageJSON.DevDependencies pkgJSON !! "vite"); [|reflexivity].
  destruct (getSemVer _) as [major full].
  now rewrite (rangeSupported_examined pkgJSON pkgJSON' supported _ Hagree).
Qed.

(** The walk stops at the first declared candidate. *)
Lemma examinedOf_firstMatch (pkgJSON : PackageJSON.t) (pkgs : list string) :
  match List.find (fun pkg => bool_decide (is_Some (candidateLookup pkgJSON pkg)))
                  pkgs with
  | Some c =>
      exists pre post, pkgs = (pre ++ c :: post)%list /\
        examinedOf pkgJSON pkgs = (pre ++ [c])%list /\
        Forall (fun p => candidateLookup pkgJSON p = None) pre
  | None => examinedOf pkgJSON pkgs = pkgs
  end.
Proof.
  induction pkgs as [|pkg rest IH]; cbn; [reflexivity|].
  case_bool_decide as Hd.
  - exists [], rest. repeat split. constructor.
  - destruct (List.find _ rest) as [c|].
    + destruct IH as (pre & post & -> & -> & Hpre).
      exists (pkg :: pre), post. repeat split. constructor; [|exact Hpre].
      destruct (candidateLookup pkgJSON pkg) eqn:E; [|reflexivity].
      destruct Hd. eauto.
    + now rewrite IH.
Qed.

End AnalyzerFacts.

(** ** The configuration resolver *)

Section ResolverFacts.
Context `{ResolverEnv}.

(** Case analysis on the emptiness tests of a pass, innermost first. *)
Ltac by_emptiness :=
  repeat match goal with
    | |- context [String.eqb ?x ?y] =>
        is_var x; destruct (String.eqb_spec x y) as [->|?]; cbn
    end;
  unfold fillIfEmpty, portFor;
  repeat case_bool_decide; try congruence; try reflexivity.

Lemma eqb_empty (s : string) : String.eqb s "" = bool_decide (s = "").
Proof.
  destruct (String.eqb_spec s "") as [->|Hne]; [reflexivity|].
  now rewrite bool_decide_eq_false_2.
Qed.

Lemma fillIfEmpty_set (current value : string) :
  current <> "" -> fillIfEmpty current value = current.
Proof. intros Hne. unfold fillIfEmpty. now rewrite bool_decide_eq_false_2. Qed.

Lemma fillIfEmpty_idem (current value : string) :
  fillIfEmpty (fillIfEmpty current value) value = fillIfEmpty current value.
Proof. unfold fillIfEmpty. repeat case_bool_decide; congruence. Qed.

Lemma projectRootDefaulted_path (vc : ViteConfig.t) :
  ViteConfig.JSProjectPath (projectRootDefaulted vc)
    = fillIfEmpty (ViteConfig.JSProjectPath vc) "frontend".
Proof.
  unfold projectRootDefaulted, fillIfEmpty. rewrite eqb_empty.
  now case_bool_decide.
Qed.

Lemma projectRootDefaulted_set (vc : ViteConfig.t) :
  ViteConfig.JSProjectPath vc <> "" -> projectRootDefaulted vc = vc.
Proof.
  intros Hne. unfold projectRootDefaulted.
  now rewrite eqb_empty, bool_decide_eq_false_2.
Qed.

Lemma fillIfEmpty_frontend (current : string) :
  fillIfEmpty current "frontend" <> "".
Proof. unfold fillIfEmpty. now case_bool_decide. Qed.

(** The manifest is located from the store and the project root only. *)
Lemma parsePackageJSON_ext (vc1 vc2 : ViteConfig.t) :
  ViteConfig.FS vc1 = ViteConfig.FS vc2 ->
  ViteConfig.JSProjectPath vc1 = ViteConfig.JSProjectPath vc2 ->
  parsePackageJSON vc1 = parsePackageJSON vc2.
Proof. intros Hfs Hp. unfold parsePackageJSON. now rewrite Hfs, Hp. Qed.

Lemma detectVersion_spec (defaults : JSAppParams.t) (vc : ViteConfig.t) :
  let version :=
    fillIfEmpty (ViteConfig.ViteVersion vc) (JSAppParams.ViteMajorVer defaults) in
  detectVersion defaults vc
    = (ViteConfig.set_ViteVersion version
         (ViteConfig.set_DevDefaults (Some defaults) vc), version).
Proof.
  destruct vc. unfold detectVersion, getViteVersion. cbn. by_emptiness.
Qed.

Lemma fillDevelopment_spec (defaults : JSAppParams.t) (version : string)
    (vc : ViteConfig.t) :
  fillDevelopment defaults version vc
    = ViteConfig.mk (ViteConfig.FS vc) (ViteConfig.Environment vc)
        (ViteConfig.JSProjectPath vc) (ViteConfig.AssetsPath vc)
        (ViteConfig.ViteVersion vc)
        (fillIfEmpty (ViteConfig.Platform vc) (JSAppParams.PackageType defaults))
        (fillIfEmpty (ViteConfig.EntryPoint vc) (JSAppParams.EntryPoint defaults))
        (fillIfEmpty (ViteConfig.URLPrefix vc) "/src/")
        (fillIfEmpty (ViteConfig.DevServerPort vc) (portFor version))
        (fillIfEmpty (ViteConfig.DevServerDomain vc) "localhost")
        (ViteConfig.HTTPS vc) (ViteConfig.DevDefaults vc).
Proof.
  destruct vc. unfold fillDevelopment. cbn. by_emptiness.
Qed.

(** The development pass is the specification's fill-if-empty pass. *)
Lemma SetDevelopmentDefaults_spec (vc : ViteConfig.t) :
  SetDevelopmentDefaults vc =
  match parsePackageJSON (projectRootDefaulted vc) with
  | Err err => (projectRootDefaulted vc, Some err)
  | Ok pkgJSON =>
      match analyzePackageJSON pkgJSON with
      | None =>
          (projectRootDefaulted vc, Some (ErrMsg "invalid configuration"))
      | Some defaults => (resolvedDevelopment vc defaults, None)
      end
  end.
Proof.
  unfold SetDevelopmentDefaults. fold (projectRootDefaulted vc).
  destruct (parsePackageJSON (projectRootDefaulted vc)) as [pkgJSON|err];
    [|reflexivity].
  destruct (analyzePackageJSON pkgJSON) as [defaults|]; [|reflexivity].
  pose proof (detectVersion_spec defaults (projectRootDefaulted vc)) as Hd.
  cbn zeta in Hd. rewrite Hd, fillDevelopment_spec.
  unfold resolvedDevelopment, projectRootDefaulted.
  destruct vc. cbn. by_emptiness.
Qed.

Lemma SetProductionDefaults_spec (vc : ViteConfig.t) :
  SetProductionDefaults vc = (resolvedProduction vc, None).
Proof.
  destruct vc. unfold SetProductionDefaults, resolvedProduction.
  cbn. by_emptiness.
Qed.

Lemma resolvedDevelopment_idem (vc : ViteConfig.t) (detected : JSAppParams.t) :
  resolvedDevelopment (resolvedDevelopment vc detected) detected
    = resolvedDevelopment vc detected.
Proof.
  unfold resolvedDevelopment. cbn. now rewrite !fillIfEmpty_idem.
Qed.

Lemma resolvedProduction_idem (vc : ViteConfig.t) :
  resolvedProduction (resolvedProduction vc) = resolvedProduction vc.
Proof. unfold resolvedProduction. cbn. now rewrite !fillIfEmpty_idem. Qed.

Lemma SetDevelopmentDefaults_idem (vc : ViteConfig.t) :
  SetDevelopmentDefaults (SetDevelopmentDefaults vc).1
    = SetDevelopmentDefaults vc.
Proof.
  rewrite (SetDevelopmentDefaults_spec vc).
  assert (Hroot : projectRootDefaulted (projectRootDefaulted vc)
                  = projectRootDefaulted vc).
  { apply projectRootDefaulted_set. rewrite projectRootDefaulted_path.
    apply fillIfEmpty_frontend. }
  destruct (parsePackageJSON (projectRootDefaulted vc)) as [pkgJSON|err] eqn:Hp.
  - destruct (analyzePackageJSON pkgJSON) as [defaults|] eqn:Ha; cbn [fst].
    + rewrite SetDevelopmentDefaults_spec.
      assert (Hsame : projectRootDefaulted (resolvedDevelopment vc defaults)
                      = resolvedDevelopment vc defaults).
      { apply projectRootDefaulted_set. cbn. apply fillIfEmpty_frontend. }
      rewrite Hsame.
      rewrite (parsePackageJSON_ext _ (projectRootDefaulted vc)), Hp, Ha.
      * now rewrite resolvedDevelopment_idem.
      * unfold projectRootDefaulted. now destruct (String.eqb _ _).
      * now rewrite projectRootDefaulted_path.
    + rewrite SetDevelopmentDefaults_spec, Hroot, Hp, Ha. reflexivity.
  - cbn [fst]. rewrite SetDevelopmentDefaults_spec, Hroot, Hp. reflexivity.
Qed.

Lemma SetProductionDefaults_idem (vc : ViteConfig.t) :
  SetProductionDefaults (SetProductionDefaults vc).1
    = SetProductionDefaults vc.
Proof.
  rewrite !SetProductionDefaults_spec. cbn [fst].
  now rewrite resolvedProduction_idem.
Qed.

Lemma projectRootDefaulted_keeps (vc : ViteConfig.t) :
  keepsOperatorSettings vc (projectRootDefaulted vc).
Proof.
  unfold keepsOperatorSettings, projectRootDefaulted. rewrite eqb_empty.
  case_bool_decide; cbn; repeat split; congruence.
Qed.

Lemma resolvedDevelopment_keeps (vc : ViteConfig.t) (detected : JSAppParams.t) :
  keepsOperatorSettings vc (resolvedDevelopment vc detected).
Proof.
  unfold keepsOperatorSettings, resolvedDevelopment. cbn.
  repeat split; try apply fillIfEmpty_set.
Qed.

Lemma resolvedProduction_keeps (vc : ViteConfig.t) :
  keepsOperatorSettings vc (resolvedProduction vc) /\
  ViteConfig.DevDefaults (resolvedProduction vc) = ViteConfig.DevDefaults vc.
Proof.
  unfold keepsOperatorSettings, resolvedProduction. cbn.
  repeat split; try apply fillIfEmpty_set; intros Hne; reflexivity.
Qed.

Lemma SetDevelopmentDefaults_keeps (vc : ViteConfig.t) :
  keepsOperatorSettings vc (SetDevelopmentDefaults vc).1.
Proof.
  rewrite SetDevelopmentDefaults_spec.
  destruct (parsePackageJSON _) as [pkgJSON|err];
    [destruct (analyzePackageJSON pkgJSON) as [defaults|]|]; cbn [fst];
    auto using projectRootDefaulted_keeps, resolvedDevelopment_keeps.
Qed.

End ResolverFacts.

(** ** Claims about [utils.go] *)

(** C4: a parsed manifest whose development dependencies lack [vite] gives
    no profile: [analyzePackageJSON] returns nil, and
    [SetDevelopmentDefaults], once it has parsed that manifest, returns an
    error and leaves the detected profile, the build-tool version, the
    platform, the entry point, the mount prefix and the dev-server port
    and domain as they were. *)
Theorem C4_manifest_without_vite `{ResolverEnv}
    (pkgJSON : PackageJSON.t) (vc : ViteConfig.t) :
  PackageJSON.DevDependencies pkgJSON !! "vite" = None ->
  parsePackageJSON (projectRootDefaulted vc) = Ok pkgJSON ->
  analyzePackageJSON pkgJSON = None /\
  exists err vc',
    SetDevelopmentDefaults vc = (vc', Some err) /\
    ViteConfig.DevDefaults vc' = ViteConfig.DevDefaults vc /\
    ViteConfig.ViteVersion vc' = ViteConfig.ViteVersion vc /\
    ViteConfig.Platform vc' = ViteConfig.Platform vc /\
    ViteConfig.EntryPoint vc' = ViteConfig.EntryPoint vc /\
    ViteConfig.URLPrefix vc' = ViteConfig.URLPrefix vc /\
    ViteConfig.DevServerPort vc' = ViteConfig.DevServerPort vc /\
    ViteConfig.DevServerDomain vc' = ViteConfig.DevServerDomain vc.
Proof.
  intros Hvite Hparse.
  assert (Hnil : analyzePackageJSON pkgJSON = None).
  { unfold analyzePackageJSON. now rewrite Hvite. }
  split; [exact Hnil|].
  exists (ErrMsg "invalid configuration"), (projectRootDefaulted vc).
  rewrite SetDevelopmentDefaults_spec, Hparse, Hnil.
  split; [reflexivity|].
  unfold projectRootDefaulted. destruct (String.eqb _ _); cbn; repeat split.
Qed.

(** C4 at a manifest with react and typescript and no vite. *)
Lemma C4_witness :
  analyzePackageJSON (Examples.manifest Examples.noVite.1 Examples.noVite.2) = None /\
  exists err vc',
    @SetDevelopmentDefaults Examples.resolverEnv
      (Examples.emptyConfig (Examples.project Examples.noVite)) = (vc', Some err) /\
    ViteConfig.DevDefaults vc' = None /\
    ViteConfig.ViteVersion vc' = "" /\
    ViteConfig.Platform vc' = "" /\
    ViteConfig.EntryPoint vc' = "" /\
    ViteConfig.URLPrefix vc' = "" /\
    ViteConfig.DevServerPort vc' = "" /\
    ViteConfig.DevServerDomain vc' = "".
Proof.
  apply (@C4_manifest_without_vite Examples.resolverEnv
           (Examples.manifest Examples.noVite.1 Examples.noVite.2)
           (Examples.emptyConfig (Examples.project Examples.noVite))).
  - vm_compute. reflexivity.
  - vm_compute. reflexivity.
Defined.

(** C5: the framework is the first of vue, react, preact, svelte, lit, in
    that order, that the manifest declares, svelte being looked up among
    the development dependencies and every other among the runtime ones,
    else vanilla; a manifest that declares vue resolves to vue whatever
    else it declares; the candidates examined are those of the list up to
    and including the first match; and the result depends on no candidate
    after it: a manifest that answers the examined lookups alike gives
    the same profile. *)
Theorem C5_first_match_wins (pkgJSON : PackageJSON.t) (out : JSAppParams.t) :
  analyzePackageJSON pkgJSON = Some out ->
  JSAppParams.PackageType out = default "vanilla" (firstMatch pkgJSON) /\
  JSAppParams.PackageType out =
    (if bool_decide (is_Some (PackageJSON.Dependencies pkgJSON !! "vue"))
     then "vue"
     else if bool_decide (is_Some (PackageJSON.Dependencies pkgJSON !! "react"))
     then "react"
     else if bool_decide (is_Some (PackageJSON.Dependencies pkgJSON !! "preact"))
     then "preact"
     else if bool_decide (is_Some (PackageJSON.DevDependencies pkgJSON !! "svelte"))
     then "svelte"
     else if bool_decide (is_Some (PackageJSON.Dependencies pkgJSON !! "lit"))
     then "lit"
     else "vanilla") /\
  (is_Some (PackageJSON.Dependencies pkgJSON !! "vue") ->
   JSAppParams.PackageType out = "vue") /\
  (forall c, firstMatch pkgJSON = Some c ->
     exists pre post,
       ["vue"; "react"; "preact"; "svelte"; "lit"] = (pre ++ c :: post)%list /\
       examined pkgJSON = (pre ++ [c])%list /\
       Forall (fun p => candidateLookup pkgJSON p = None) pre) /\
  (forall pkgJSON',
     PackageJSON.DevDependencies pkgJSON' !! "vite"
       = PackageJSON.DevDependencies pkgJSON !! "vite" ->
     PackageJSON.DevDependencies pkgJSON' !! "typescript"
       = PackageJSON.DevDependencies pkgJSON !! "typescript" ->
     (forall pkg, pkg ∈ examined pkgJSON ->
        candidateLookup pkgJSON' pkg = candidateLookup pkgJSON pkg) ->
     analyzePackageJSON pkgJSON' = Some out).
Proof.
  intros Hout.
  destruct (analyze_shape _ _ Hout) as (viteVers & _ & _ & _ & _ & Htype & _).
  split; [exact Htype|]. split; [|split; [|split]].
  - rewrite Htype. unfold firstMatch, frameworks, candidateLookup.
    cbn [List.find String.eqb Ascii.eqb Bool.eqb].
    repeat (case_bool_decide; [reflexivity|]). reflexivity.
  - intros [v Hv]. rewrite Htype. unfold firstMatch, frameworks, candidateLookup.
    cbn. now rewrite Hv.
  - intros c Hc. pose proof (examinedOf_firstMatch pkgJSON frameworks) as Hex.
    unfold firstMatch in Hc. rewrite Hc in Hex. exact Hex.
  - intros pkgJSON' Hvite Hts Hagree. rewrite <- Hout.
    now apply analyze_examined.
Qed.

(** C5 at a manifest that declares both vue and react, and at one that
    declares svelte among the development dependencies and lit among the
    runtime ones. *)
Lemma C5_witness :
  let pkgJSON := Examples.manifest Examples.vueAndReact.1 Examples.vueAndReact.2 in
  let pkgJSON' :=
    Examples.manifest Examples.svelteAndLit.1 Examples.svelteAndLit.2 in
  is_Some (PackageJSON.Dependencies pkgJSON !! "react") /\
  (exists out, analyzePackageJSON pkgJSON = Some out /\
     JSAppParams.PackageType out = "vue" /\
     examined pkgJSON = ["vue"]) /\
  is_Some (PackageJSON.Dependencies pkgJSON' !! "lit") /\
  (exists out, analyzePackageJSON pkgJSON' = Some out /\
     JSAppParams.PackageType out = "svelte" /\
     examined pkgJSON' = ["vue"; "react"; "preact"; "svelte"]).
Proof.
  cbv zeta. split; [vm_compute; eauto|]. split; [|split; [vm_compute; eauto|]].
  - assert (Hout : analyzePackageJSON
              (Examples.manifest Examples.vueAndReact.1 Examples.vueAndReact.2)
            = Some (JSAppParams.mk "" "4.1.0" "4" "vue" "3" "src/main.js" false
                                   false "3.2.45" "" "" "" ""))
      by (vm_compute; reflexivity).
    eexists. split; [exact Hout|]. split.
    + apply (proj1 (proj2 (proj2 (C5_first_match_wins _ _ Hout)))).
      vm_compute. eauto.
    + vm_compute. reflexivity.
  - assert (Hout : analyzePackageJSON
              (Examples.manifest Examples.svelteAndLit.1 Examples.svelteAndLit.2)
            = Some (JSAppParams.mk "" "4.1.0" "4" "svelte" "3" "src/main.js"
                                   false false "" "" "" "3.55.0" ""))
      by (vm_compute; reflexivity).
    eexists. split; [exact Hout|]. split.
    + rewrite (proj1 (proj2 (C5_first_match_wins _ _ Hout))).
      vm_compute. reflexivity.
    + vm_compute. reflexivity.
Defined.

(** C6: the entry point of a profile is the table value for its framework
    and its typed flag, where the framework is the first match (vanilla
    when there is none) and the flag says whether the manifest has
    [typescript] among its development dependencies. *)
Theorem C6_entry_point_table (pkgJSON : PackageJSON.t) (out : JSAppParams.t) :
  analyzePackageJSON pkgJSON = Some out ->
  let framework := default "vanilla" (firstMatch pkgJSON) in
  let typed :=
    bool_decide (is_Some (PackageJSON.DevDependencies pkgJSON !! "typescript")) in
  JSAppParams.PackageType out = framework /\
  JSAppParams.HasTypeScript out = typed /\
  JSAppParams.IsVanilla out = bool_decide (firstMatch pkgJSON = None) /\
  JSAppParams.EntryPoint out = entryPointOf framework typed /\
  entryPointOf "vue" true = "src/main.ts" /\
  entryPointOf "vue" false = "src/main.js" /\
  entryPointOf "svelte" true = "src/main.ts" /\
  entryPointOf "svelte" false = "src/main.js" /\
  entryPointOf "react" true = "src/main.tsx" /\
  entryPointOf "react" false = "src/main.jsx" /\
  entryPointOf "preact" true = "src/main.tsx" /\
  entryPointOf "preact" false = "src/main.jsx" /\
  entryPointOf "lit" true = "" /\
  entryPointOf "lit" false = "" /\
  entryPointOf "vanilla" true = "src/main.ts" /\
  entryPointOf "vanilla" false = "main.js".
Proof.
  intros Hout framework typed.
  destruct (analyze_shape _ _ Hout)
    as (viteVers & _ & _ & _ & Hts & Htype & Hvan & Hentry).
  subst framework typed. rewrite <- Htype, <- Hts.
  repeat split; try assumption; reflexivity.
Qed.

(** C6 at the manifest of the specification's scenario: react, typed. *)
Lemma C6_witness :
  exists out,
    analyzePackageJSON
      (Examples.manifest Examples.reactTyped.1 Examples.reactTyped.2) = Some out /\
    JSAppParams.PackageType out = "react" /\
    JSAppParams.HasTypeScript out = true /\
    JSAppParams.EntryPoint out = "src/main.tsx".
Proof.
  assert (Hout : analyzePackageJSON
            (Examples.manifest Examples.reactTyped.1 Examples.reactTyped.2)
          = Some (JSAppParams.mk "" "4.1.0" "4" "react" "18" "src/main.tsx" true
                                 false "" "18.2.0" "" "" ""))
    by (vm_compute; reflexivity).
  eexists. split; [exact Hout|].
  pose proof (C6_entry_point_table _ _ Hout) as Htable. cbv zeta in Htable.
  destruct Htable as (Htype & Hts & _ & Hentry & _).
  rewrite Htype, Hts, Hentry. vm_compute. repeat split.
Defined.

(** C7, as stated, fails for the detected profile: a profile the operator
    put into [DevDefaults] before the call is replaced by the result of
    the analysis. *)
Lemma C7_counterexample :
  let vc := Examples.preset (Examples.project Examples.reactTyped) in
  let vc' := (@SetDevelopmentDefaults Examples.resolverEnv vc).1 in
  ViteConfig.DevDefaults vc = Some Examples.handWritten /\
  (@SetDevelopmentDefaults Examples.resolverEnv vc).2 = None /\
  ViteConfig.DevDefaults vc' <> ViteConfig.DevDefaults vc.
Proof.
  cbv zeta. split; [vm_compute; reflexivity|].
  split; [vm_compute; reflexivity|].
  vm_compute. discriminate.
Qed.

(** C7 (amended): both passes are idempotent, a second call returns the
    configuration and the error of the first unchanged; and both keep
    every setting the operator supplied: the store, the environment, the
    security flag and each text setting that was not empty. The detected
    profile is outside that guarantee: the development pass stores the
    analysis result in it on every successful call, while the production
    pass leaves it alone. *)
Theorem C7_idempotent_passes `{ResolverEnv} (vc : ViteConfig.t) :
  SetDevelopmentDefaults (SetDevelopmentDefaults vc).1
    = SetDevelopmentDefaults vc /\
  SetProductionDefaults (SetProductionDefaults vc).1
    = SetProductionDefaults vc /\
  keepsOperatorSettings vc (SetDevelopmentDefaults vc).1 /\
  keepsOperatorSettings vc (SetProductionDefaults vc).1 /\
  ViteConfig.DevDefaults (SetProductionDefaults vc).1 = ViteConfig.DevDefaults vc /\
  (forall detected,
     (SetDevelopmentDefaults vc).2 = None ->
     ViteConfig.DevDefaults (SetDevelopmentDefaults vc).1 = Some detected ->
     exists pkgJSON,
       parsePackageJSON (projectRootDefaulted vc) = Ok pkgJSON /\
       analyzePackageJSON pkgJSON = Some detected).
Proof.
  split; [apply SetDevelopmentDefaults_idem|].
  split; [apply SetProductionDefaults_idem|].
  split; [apply SetDevelopmentDefaults_keeps|].
  rewrite SetProductionDefaults_spec. cbn [fst].
  split; [apply resolvedProduction_keeps|].
  split; [apply resolvedProduction_keeps|].
  intros detected. rewrite SetDevelopmentDefaults_spec.
  destruct (parsePackageJSON _) as [pkgJSON|err]; [|discriminate].
  destruct (analyzePackageJSON pkgJSON) as [defaults|] eqn:Ha; [|discriminate].
  cbn. intros _ [= <-]. eauto.
Qed.

(** C7 (amended) at a project with a typed react manifest: the second
    development pass changes nothing. *)
Lemma C7_witness :
  let vc := Examples.preset (Examples.project Examples.reactTyped) in
  let once := @SetDevelopmentDefaults Examples.resolverEnv vc in
  @SetDevelopmentDefaults Examples.resolverEnv once.1 = once /\
  ViteConfig.DevServerPort once.1 = "5173".
Proof.
  cbv zeta. split.
  - exact (proj1 (@C7_idempotent_passes Examples.resolverEnv
                    (Examples.preset (Examples.project Examples.reactTyped)))).
  - vm_compute. reflexivity.
Defined.





(** C10: after a successful development pass on a configuration whose
    build-tool version was unset, the version field is the major version
    read from the manifest's vite entry: a non-empty digit run, different
    from the full version and from the manifest text, when the entry fits
    the pattern, and the empty string when it does not. *)
Theorem C10_major_version_only `{ResolverEnv} (vc vc' : ViteConfig.t) :
  ViteConfig.ViteVersion vc = "" ->
  SetDevelopmentDefaults vc = (vc', None) ->
  exists pkgJSON viteVers,
    parsePackageJSON (projectRootDefaulted vc) = Ok pkgJSON /\
    PackageJSON.DevDependencies pkgJSON !! "vite" = Some viteVers /\
    ViteConfig.ViteVersion vc' = (getSemVer viteVers).1 /\
    match SemVer.FindStringSubmatch viteVers with
    | Some _ =>
        digitRun (ViteConfig.ViteVersion vc') /\
        ViteConfig.ViteVersion vc' <> (getSemVer viteVers).2 /\
        ViteConfig.ViteVersion vc' <> viteVers
    | None => ViteConfig.ViteVersion vc' = ""
    end.
Proof.
  intros Hver. rewrite SetDevelopmentDefaults_spec.
  destruct (parsePackageJSON _) as [pkgJSON|err]; [|discriminate].
  destruct (analyzePackageJSON pkgJSON) as [defaults|] eqn:Ha; [|discriminate].
  intros [= <-].
  destruct (analyze_shape _ _ Ha) as (viteVers & Hvite & Hmajor & _).
  exists pkgJSON, viteVers. split; [reflexivity|]. split; [exact Hvite|].
  cbn. rewrite Hver. unfold fillIfEmpty. cbn. rewrite Hmajor.
  split; [reflexivity|].
  destruct (SemVer.FindStringSubmatch viteVers) as [ms|] eqn:Hm.
  - exact (getSemVer_major _ _ Hm).
  - now rewrite (getSemVer_no_match _ Hm).
Qed.

(** C10 at a manifest with [vite: ^4.1.0]: the version field is [4]. *)
Lemma C10_witness :
  getSemVer "^4.1.0" = ("4", "4.1.0") /\
  exists vc',
    @SetDevelopmentDefaults Examples.resolverEnv
      (Examples.emptyConfig (Examples.project Examples.reactTyped)) = (vc', None) /\
    ViteConfig.ViteVersion vc' = "4".
Proof.
  split; [vm_compute; reflexivity|].
  eexists. split; [vm_compute; reflexivity|].
  destruct (@C10_major_version_only Examples.resolverEnv
              (Examples.emptyConfig (Examples.project Examples.reactTyped))
              _ eq_refl ltac:(vm_compute; reflexivity))
    as (pkgJSON & viteVers & _ & _ & _ & _).
  vm_compute. reflexivity.
Defined.

(** ** Running handlers *)

Section RunFacts.
Context (net : http.Network).

Lemma run_bind {A B} (p : http.prog A) (f : A -> http.prog B) (w : http.world) :
  http.run net (http.bind p f) w =
  match http.run net p w with
  | (w', Some a) => http.run net (f a) w'
  | (w', None) => (w', None)
  end.
Proof.
  revert w. induction p as [a| |op k IH|code k IH|buf k IH|call k IH|r0 k IH];
    intros w; cbn; try reflexivity; try apply IH.
  destruct (net _ buf); apply IH.
Qed.

(** A run only ever adds to the list of [WriteHeader] calls. *)
Lemma run_calls_extend {A} (p : http.prog A) (w : http.world) :
  exists more,
    http.writeHeaderCalls (http.run net p w).1
      = (http.writeHeaderCalls w ++ more)%list.
Proof.
  revert w. induction p as [a| |op k IH|code k IH|buf k IH|call k IH|r0 k IH];
    intros w; cbn.
  - exists []. now rewrite app_nil_r.
  - exists []. now rewrite app_nil_r.
  - destruct (IH (match http.status w with
                  | Some _ => w
                  | None => http.mkWorld None (http.header w ++ [op]) (http.body w)
                              (http.log w) (http.writeHeaderCalls w)
                  end)) as [more Hm].
    exists more. rewrite Hm. now destruct (http.status w).
  - match goal with |- context [http.run net k ?w1] =>
      destruct (IH w1) as [more Hm] end.
    exists (code :: more). rewrite Hm. cbn.
    unfold http.fixStatus. destruct (http.status w); cbn;
      now rewrite <- app_assoc.
  - unfold http.fixStatus.
    destruct (http.status w) eqn:Hs; cbn; destruct (net _ buf);
      match goal with |- context [http.run net (k ?e) ?w1] =>
        destruct (IH e w1) as [more Hm]; exists more; rewrite Hm; reflexivity
      end.
  - match goal with |- context [http.run net k ?w1] =>
      destruct (IH w1) as [more Hm] end.
    exists more. now rewrite Hm.
  - apply IH.
Qed.

(** A run on a copy is the same run for the client and the log. *)
Lemma run_onCopy {A} (p : http.prog A) (w : http.world) :
  http.run net (http.onCopy p) w = http.run net p w.
Proof.
  revert w. induction p as [a| |op k IH|code k IH|buf k IH|call k IH|r0 k IH];
    intros w; cbn; try reflexivity; try apply IH.
  destruct (net _ buf); apply IH.
Qed.

(** Tracking the request changes nothing for the client and the log, and
    the run ends the same way. *)
Lemma run_tracked {A} (p : http.prog A) (r : http.Request) (w : http.world) :
  (http.run net (http.tracked p r) w).1 = (http.run net p w).1 /\
  ((http.run net (http.tracked p r) w).2 = None <->
   (http.run net p w).2 = None) /\
  forall a r',
    (http.run net (http.tracked p r) w).2 = Some (a, r') ->
    (http.run net p w).2 = Some a.
Proof.
  revert r w. induction p as [a| |op k IH|code k IH|buf k IH|call k IH|r0 k IH];
    intros r w; cbn; try apply IH.
  - split; [reflexivity|]. split; [split; discriminate|]. now intros a0 r' [= <- _].
  - split; [reflexivity|]. split; [tauto|]. discriminate.
  - destruct (net _ buf); apply IH.
Qed.

Lemma last_cons_default {A} (x d : A) (l : list A) :
  List.last (x :: l) d = List.last l x.
Proof.
  revert x d. induction l as [|y l IH]; intros x d; [reflexivity|].
  change (List.last (y :: l) d = List.last (y :: l) x).
  now rewrite (IH y d), (IH y x).
Qed.

Lemma drop_length_app {A} (l more : list A) :
  drop (List.length l) (l ++ more) = more.
Proof. induction l as [|x l IH]; [reflexivity | exact IH]. Qed.

End RunFacts.

(** ** The access logger *)

Section LoggerFacts.
Context `{ServerEnv} (net : http.Network).

(** A run against the wrapper is the run against the writer, and the
    final [RetCode] is the status of the last [WriteHeader] call of the
    run, or the initial one when the run made none. *)
Lemma run_serveWrapped {A} (p : http.prog A) (RetCode : Z) (w : http.world) :
  http.run net (serveWrapped p RetCode) w =
  match http.run net p w with
  | (w', Some a) =>
      (w', Some (a, List.last (drop (List.length (http.writeHeaderCalls w))
                                    (http.writeHeaderCalls w')) RetCode))
  | (w', None) => (w', None)
  end.
Proof.
  revert RetCode w.
  induction p as [a| |op k IH|code k IH|buf k IH|call k IH|r0 k IH];
    intros RetCode w; cbn.
  - now rewrite drop_all.
  - reflexivity.
  - rewrite IH. now destruct (http.status w).
  - rewrite IH. cbn.
    match goal with |- context [http.run net k ?w1] =>
      destruct (run_calls_extend net k w1) as [more Hm];
      destruct (http.run net k w1) as [w' [a|]]; [|reflexivity]
    end.
    cbn in Hm. rewrite Hm.
    replace (http.writeHeaderCalls (http.fixStatus code w))
      with (http.writeHeaderCalls w)
      by (unfold http.fixStatus; now destruct (http.status w)).
    rewrite drop_length_app, <- app_assoc, drop_length_app. cbn [app].
    now rewrite last_cons_default.
  - replace (http.writeHeaderCalls w)
      with (http.writeHeaderCalls (http.fixStatus 200 w))
      by (unfold http.fixStatus; now destruct (http.status w)).
    destruct (net _ buf); now rewrite IH.
  - now rewrite IH.
  - apply IH.
Qed.

Lemma run_logRequest (next : http.Handler) (r : http.Request) (w : http.world) :
  http.writeHeaderCalls w = [] ->
  http.run net (logRequest next r) w
    = withAccessLine (http.run net (http.tracked (next r) r) w).
Proof.
  intros Hcalls. unfold logRequest. rewrite run_bind, run_serveWrapped.
  rewrite Hcalls. cbn [List.length drop].
  destruct (http.run net (http.tracked (next r) r) w) as [w' [[[] r']|]];
    reflexivity.
Qed.

(** The access line has the five fields, the URI without CR and LF. *)
Lemma strings_Remove_CRLF (s : string) :
  strings_Remove (strings_Remove s LF) CR = withoutCRLF s.
Proof.
  unfold withoutCRLF. induction s as [|c s IH]; [reflexivity|].
  cbn [strings_Remove list_ascii_of_string]. rewrite filter_cons.
  destruct (Ascii.eqb_spec c LF) as [->|Hlf].
  - rewrite IH. rewrite decide_False by (intros [_ Hc]; now apply Hc).
    reflexivity.
  - cbn [strings_Remove]. destruct (Ascii.eqb_spec c CR) as [->|Hcr].
    + rewrite IH. rewrite decide_False by (intros [Hc _]; now apply Hc).
      reflexivity.
    + rewrite IH. rewrite decide_True by now split. reflexivity.
Qed.

Lemma withoutCRLF_clean (s : string) (c : ascii) :
  c ∈ list_ascii_of_string (withoutCRLF s) -> c <> CR /\ c <> LF.
Proof.
  unfold withoutCRLF. rewrite list_ascii_of_string_of_list_ascii.
  intros Hin. now apply list_elem_of_filter in Hin as [Hc _].
Qed.

Lemma accessLine_fields (r : http.Request) (RetCode : Z) :
  accessLine r RetCode =
  http.Printf "%s - %s %s %s (%d)"
    [http.ArgS (http.RemoteAddr r); http.ArgS (http.Proto r);
     http.ArgS (http.Method r);
     http.ArgS (withoutCRLF (RequestURI (http.Url r)));
     http.ArgD RetCode].
Proof. unfold accessLine. now rewrite strings_Remove_CRLF. Qed.

End LoggerFacts.

(** ** What the client sees does not depend on the log *)

Section VisibleFacts.
Context (net : http.Network).

Lemma run_visible {A} (p : http.prog A) (w1 w2 : http.world) :
  visible w1 = visible w2 ->
  visible (http.run net p w1).1 = visible (http.run net p w2).1 /\
  (http.run net p w1).2 = (http.run net p w2).2.
Proof.
  revert w1 w2.
  induction p as [a| |op k IH|code k IH|buf k IH|call k IH|r0 k IH];
    intros [s1 h1 b1 l1 c1] [s2 h2 b2 l2 c2] Hv;
    injection Hv as -> -> -> ->; cbn.
  - now split.
  - now split.
  - apply IH. now destruct s2.
  - apply IH. unfold http.fixStatus. cbn. now destruct s2.
  - unfold http.fixStatus. cbn. destruct s2; cbn; destruct (net b2 buf);
      now apply IH.
  - now apply IH.
  - now apply IH.
Qed.

Lemma response_visible (w1 w2 : http.world) :
  visible w1 = visible w2 -> http.response w1 = http.response w2.
Proof.
  destruct w1, w2. unfold visible, http.response. cbn. now intros [= -> -> -> ->].
Qed.

Lemma reply_Log (call : http.logCall) (k : http.prog unit) :
  http.reply net (http.Log call k) = http.reply net k.
Proof.
  unfold http.reply. cbn.
  match goal with |- context [http.run net k ?w1] =>
    destruct (run_visible k w1 http.fresh eq_refl) as [Hv Hr];
    destruct (http.run net k w1) as [w1' r1]
  end.
  destruct (http.run net k http.fresh) as [w2' r2]. cbn in Hv, Hr.
  now rewrite (response_visible _ _ Hv), Hr.
Qed.

Lemma reply_logEntries (names : list string) (k : http.prog unit) :
  http.reply net (logEntries names k) = http.reply net k.
Proof.
  induction names as [|name names IH]; [reflexivity|].
  cbn. now rewrite reply_Log.
Qed.

Lemma run_logEntries (names : list string) (k : http.prog unit) (w : http.world) :
  http.run net (logEntries names k) w
    = http.run net k (appendLog (map (fun name => http.Println [name]) names) w).
Proof.
  revert w. induction names as [|name names IH]; intros w; cbn.
  - unfold appendLog. rewrite app_nil_r. now destruct w.
  - rewrite IH. unfold appendLog. cbn. now rewrite <- app_assoc.
Qed.

End VisibleFacts.

(** ** The guard of the asset handler *)

Section GuardFacts.
Context `{ServerEnv}.

Lemma strings_Split_nonempty (s : string) (sep : ascii) :
  strings_Split s sep <> [].
Proof.
  destruct s as [|c s]; cbn; [discriminate|].
  destruct (Ascii.eqb c sep); [discriminate|].
  destruct (strings_Split s sep); discriminate.
Qed.

(** Splitting loses nothing: the pieces joined by the separator are the
    text, and no piece holds the separator. *)
Lemma strings_Split_join (s : string) (sep : ascii) :
  String.concat (String sep EmptyString) (strings_Split s sep) = s.
Proof.
  induction s as [|c s IH]; [reflexivity|]. cbn [strings_Split].
  destruct (Ascii.eqb_spec c sep) as [->|Hne].
  - pose proof (strings_Split_nonempty s sep) as Hn.
    destruct (strings_Split s sep) as [|p ps]; [contradiction|].
    cbn in *. now rewrite IH.
  - pose proof (strings_Split_nonempty s sep) as Hn.
    destruct (strings_Split s sep) as [|p ps]; [contradiction|].
    destruct ps; cbn in *; now rewrite <- IH.
Qed.

Lemma hiddenStem_spec (parts : list string) :
  hiddenStem parts = bool_decide (Exists hidden parts).
Proof.
  induction parts as [|stem rest IH]; [reflexivity|]. cbn [hiddenStem].
  destruct (decide (hidden stem)) as [[s ->]|Hno].
  - cbn. destruct s; cbn; symmetry; apply bool_decide_eq_true_2;
      left; eexists; reflexivity.
  - assert (Htest : (0 <? String.length stem)%nat
                    && String.eqb (substring 0 1 stem) "." = false).
    { destruct stem as [|c s]; [reflexivity|]. cbn.
      destruct (Ascii.eqb_spec c ".") as [->|]; [|reflexivity].
      destruct Hno. eexists. reflexivity. }
    rewrite Htest, IH. apply bool_decide_ext. rewrite Exists_cons. tauto.
Qed.

Lemma hidden_in_parts (parts : list string) (stem : string) :
  stem ∈ parts -> hidden stem -> hiddenStem parts = true.
Proof.
  intros Hin Hh. rewrite hiddenStem_spec. apply bool_decide_eq_true_2.
  apply Exists_exists. eauto.
Qed.

(** The handler is the guard's own answer, or the debug listing followed
    by the environment branch. *)
Lemma guardedFileServer_cases (vg : VitGo.t) (serveDir : fs.FS)
    (r : http.Request) :
  guardedFileServer vg serveDir r =
  if guardPasses r
  then debugListing vg serveDir r (dispatch vg serveDir r)
  else answeredByGuard r.
Proof.
  unfold guardedFileServer, guardPasses, answeredByGuard. cbn [String.length].
  destruct (slice_from (http.Path (http.Url r)) 1) as [rest|]; [|reflexivity].
  cbv zeta. rewrite hiddenStem_spec.
  destruct (bool_decide (Exists hidden (strings_Split rest "/")));
    [reflexivity|]. cbn [negb andb].
  pose proof (strings_Split_nonempty rest "/") as Hn.
  destruct (strings_Split rest "/") as [|p ps] eqn:Hparts; [contradiction|].
  cbn [List.length Nat.ltb Nat.leb andb].
  destruct (String.eqb_spec (last_part (p :: ps)) "preamble.js") as [Heq|Hne].
  - now rewrite bool_decide_eq_true_2.
  - now rewrite bool_decide_eq_false_2.
Qed.

Lemma dispatch_Debug (debug : bool) (vg : VitGo.t) (serveDir : fs.FS)
    (r : http.Request) :
  dispatch (VitGo.set_Debug debug vg) serveDir r = dispatch vg serveDir r.
Proof. reflexivity. Qed.

Lemma run_Error (net : http.Network) (msg : string) (code : Z)
    (w : http.world) :
  http.log (http.run net (http.Error msg code) w).1 = http.log w /\
  (http.run net (http.Error msg code) w).2 = Some tt /\
  (http.status w = None ->
   http.status (http.run net (http.Error msg code) w).1 = Some code).
Proof.
  destruct w as [s h b l c]. unfold http.Error.
  generalize (msg +:+ String LF EmptyString). intros buf.
  destruct s as [s|]; cbn.
  - destruct (net b buf); cbn; (split; [reflexivity|]);
      (split; [reflexivity|]); intros; discriminate.
  - destruct (net b buf); cbn; (split; [reflexivity|]);
      (split; [reflexivity|]); reflexivity.
Qed.

Lemma run_NotFound (net : http.Network) (r : http.Request) (w : http.world) :
  http.log (http.run net (http.NotFound r) w).1 = http.log w /\
  (http.run net (http.NotFound r) w).2 = Some tt /\
  (http.status w = None ->
   http.status (http.run net (http.NotFound r) w).1 = Some 404%Z).
Proof. apply run_Error. Qed.

(** The guard's own answers never hold an access line. *)
Lemma answeredByGuard_no_access (net : http.Network) (r : http.Request) :
  accessLines (http.log (http.run net (answeredByGuard r) http.fresh).1) = [].
Proof.
  unfold answeredByGuard.
  destruct (slice_from _ 1) as [rest|]; [|reflexivity].
  destruct (bool_decide _).
  - now rewrite (proj1 (run_NotFound net r http.fresh)).
  - destruct (embedFiles_ReadFile _) as [bytes|err].
    + unfold serveOneFile. cbn. destruct (net _ _); reflexivity.
    + cbn [http.run].
      match goal with |- context [http.run net (http.NotFound r) ?w] =>
        now rewrite (proj1 (run_NotFound net r w)) end.
Qed.

Lemma TrimPrefix_slash (s : string) :
  http.TrimPrefix s "/" = default s (stripSlash s).
Proof.
  destruct s as [|c s]; [reflexivity|].
  unfold http.TrimPrefix, stripSlash. cbn [http.TrimPrefix_go].
  rewrite (Ascii.eqb_sym "/" c). destruct (Ascii.eqb c "/"); [|reflexivity].
  now destruct s.
Qed.

Lemma stripSlash_shorter (s p : string) :
  stripSlash s = Some p -> (String.length p <? String.length s)%nat = true.
Proof.
  destruct s as [|c s]; [discriminate|]. cbn.
  destruct (Ascii.eqb c "/"); [|discriminate]. intros [= ->].
  apply Nat.leb_refl.
Qed.

(** The environment branch, run on a connection nothing was written to. *)
Lemma run_dispatch (net : http.Network) (vg : VitGo.t) (serveDir : fs.FS)
    (r : http.Request) (w : http.world) :
  http.writeHeaderCalls w = [] ->
  match target vg serveDir r with
  | Some (fsys, r') =>
      http.run net (dispatch vg serveDir r) w
        = withAccessLine
            (http.run net (http.tracked (http_FileServer fsys r') r') w)
  | None => http.log (http.run net (dispatch vg serveDir r) w).1 = http.log w
  end.
Proof.
  intros Hcalls. unfold target, dispatch.
  destruct (String.eqb_spec (VitGo.Environment vg) "production") as [Henv|Henv].
  - rewrite bool_decide_eq_true_2 by exact Henv.
    destruct (fs_Sub serveDir (VitGo.AssetPath vg)) as [newDir|err].
    + now apply run_logRequest.
    + cbn. unfold http.fixStatus. now destruct (http.status w).
  - rewrite bool_decide_eq_false_2 by exact Henv.
    unfold http.StripPrefix. cbn [String.eqb]. rewrite !TrimPrefix_slash.
    destruct (stripSlash (http.Path (http.Url r))) as [p|] eqn:Hp.
    2:{ cbn [default from_option id]. rewrite Nat.ltb_irrefl. apply run_NotFound. }
    cbn [default from_option id]. rewrite (stripSlash_shorter _ _ Hp). cbn [andb].
    destruct (String.eqb_spec (http.RawPath (http.Url r)) "") as [Hraw|Hraw].
    + rewrite bool_decide_eq_true_2 by exact Hraw. cbn [orb].
      rewrite Hraw. cbn [stripSlash default from_option id].
      rewrite run_onCopy. now apply run_logRequest.
    + rewrite bool_decide_eq_false_2 by exact Hraw. cbn [orb].
      destruct (stripSlash (http.RawPath (http.Url r))) as [rp|] eqn:Hrp.
      * cbn [default from_option id]. rewrite (stripSlash_shorter _ _ Hrp).
        rewrite run_onCopy. now apply run_logRequest.
      * cbn [default from_option id]. rewrite Nat.ltb_irrefl. apply run_NotFound.
Qed.

End GuardFacts.

(** ** Claims about [asset-server.go] *)

(** C1: when the path of a request, stripped of the mount prefix, has a
    segment that begins with a dot, the handler does exactly what
    [http.NotFound] does, whatever the environment, the debug flag and
    the store are: the status is 404, the run ends normally, nothing is
    logged, no store is opened and no file server is called. *)
Theorem C1_hidden_segment_not_found `{ServerEnv} (vg : VitGo.t)
    (serveDir : fs.FS) (r : http.Request) (rest stem : string) :
  slice_from (http.Path (http.Url r)) 1 = Some rest ->
  stem ∈ strings_Split rest "/" ->
  hidden stem ->
  guardedFileServer vg serveDir r = http.NotFound r /\
  forall net,
    http.status (http.run net (guardedFileServer vg serveDir r) http.fresh).1
      = Some 404%Z /\
    (http.run net (guardedFileServer vg serveDir r) http.fresh).2 = Some tt /\
    http.log (http.run net (guardedFileServer vg serveDir r) http.fresh).1 = [].
Proof.
  intros Hrest Hin Hh.
  assert (Hprog : guardedFileServer vg serveDir r = http.NotFound r).
  { unfold guardedFileServer. cbn [String.length]. rewrite Hrest. cbv zeta.
    now rewrite (hidden_in_parts _ _ Hin Hh). }
  split; [exact Hprog|]. intros net. rewrite Hprog.
  destruct (run_NotFound net r http.fresh) as (Hlog & Hres & Hst).
  split; [now apply Hst|]. split; [exact Hres | exact Hlog].
Qed.

(** C1 at a request for [/static/.git/config], in production and in
    development with the debug flag. *)
Lemma C1_witness :
  Examples.handler "production" false Examples.assets
      (Examples.GET "/static/.git/config")
    = http.NotFound (Examples.GET "/static/.git/config") /\
  Examples.handler "development" true Examples.assets
      (Examples.GET "/static/.git/config")
    = http.NotFound (Examples.GET "/static/.git/config").
Proof.
  split.
  - apply (C1_hidden_segment_not_found (H:=Examples.serverEnv) _ _ _
             "static/.git/config" ".git").
    + reflexivity.
    + vm_compute. set_solver.
    + exists "git". reflexivity.
  - apply (C1_hidden_segment_not_found (H:=Examples.serverEnv) _ _ _
             "static/.git/config" ".git").
    + reflexivity.
    + vm_compute. set_solver.
    + exists "git". reflexivity.
Defined.

(** C2, as stated, fails: over a root without an index file the listing
    of the debug configuration cannot open the guarded root, and the
    handler answers not-found to a request for a script that the same
    handler without the debug flag serves. *)
Lemma C2_counterexample :
  http.respStatus
    (http.reply http.reliable
       (Examples.handler "development" true Examples.assets
          (Examples.GET "/app.js"))).1 = 404%Z /\
  http.respStatus
    (http.reply http.reliable
       (Examples.handler "development" false Examples.assets
          (Examples.GET "/app.js"))).1 = 200%Z /\
  http.respBody
    (http.reply http.reliable
       (Examples.handler "development" false Examples.assets
          (Examples.GET "/app.js"))).1 = "console.log(1)" /\
  http.reply http.reliable
    (Examples.handler "development" true Examples.assets (Examples.GET "/app.js"))
  <> http.reply http.reliable
       (Examples.handler "development" false Examples.assets
          (Examples.GET "/app.js")).
Proof.
  split; [vm_compute; reflexivity|]. split; [vm_compute; reflexivity|].
  split; [vm_compute; reflexivity|]. vm_compute. discriminate.
Qed.

(** C2 (amended): the reply with the debug flag on is the reply with the
    flag off whenever the request does not pass the guard or the listing
    of the guarded root succeeds; when the request passes the guard and
    the listing fails, the reply with the flag on is the not-found
    reply. *)
Theorem C2_debug_listing_reply `{ServerEnv} (net : http.Network)
    (vg : VitGo.t) (serveDir : fs.FS) (r : http.Request) :
  http.reply net (guardedFileServer (VitGo.set_Debug true vg) serveDir r) =
  if guardPasses r && negb (is_ok (fs.ReadDir serveDir "."))
  then http.reply net (http.NotFound r)
  else http.reply net (guardedFileServer (VitGo.set_Debug false vg) serveDir r).
Proof.
  rewrite !guardedFileServer_cases.
  destruct (guardPasses r); [|reflexivity]. cbn [andb].
  unfold debugListing. cbn [VitGo.Debug VitGo.set_Debug].
  rewrite !dispatch_Debug, reply_Log.
  destruct (fs.ReadDir serveDir ".") as [names|err]; cbn [is_ok negb].
  - apply reply_logEntries.
  - apply reply_Log.
Qed.

(** C2 (amended) at a request for a script over a root that has an index
    file: the listing succeeds and the two replies are equal. *)
Lemma C2_witness :
  http.reply http.reliable
    (Examples.handler "development" true Examples.site (Examples.GET "/app.js"))
  = http.reply http.reliable
      (Examples.handler "development" false Examples.site (Examples.GET "/app.js")).
Proof.
  exact (C2_debug_listing_reply (H:=Examples.serverEnv) http.reliable
           (VitGo.mk Examples.site "frontend" "dist" "development" false)
           (wrapperFS (H:=Examples.serverEnv) Examples.site)
           (Examples.GET "/app.js")).
Defined.

(** C3, as stated, fails when closing the directory handle fails: the
    error returned is the one of [Close], not the not-found error of the
    index file. *)
Lemma C3_counterexample :
  (exists f info,
     fs.Open Examples.flaky "img" = Ok f /\ fs.Stat f = Ok info /\
     fs.IsDir info = true) /\
  fs.Open Examples.flaky "img/index.html" = Err (ErrNotExist "img/index.html") /\
  (wrapperFS_Open (H:=Examples.serverEnv) Examples.flaky "img").1
    = Err (ErrMsg "close img: input/output error") /\
  (wrapperFS_Open (H:=Examples.serverEnv) Examples.flaky "img").1
    <> Err (ErrNotExist "img/index.html").
Proof.
  split; [do 2 eexists; vm_compute; repeat split|].
  split; [vm_compute; reflexivity|].
  split; [vm_compute; reflexivity|]. vm_compute. discriminate.
Qed.

(** C3 (amended): an error of the store on opening the path is returned
    unchanged, with no handle closed. For a path the store opens as a
    directory, the directory is returned only when the store also opens
    [index.html] inside it, and then no handle is closed; when it does
    not, [Close] is called on the directory handle and an error is
    returned, never the directory: the error of opening the index file,
    or the error of [Close] when closing fails. *)
Theorem C3_directory_needs_index `{ServerEnv} (wrpr : fs.FS) (path : string) :
  (forall err, fs.Open wrpr path = Err err ->
     wrapperFS_Open wrpr path = (Err err, [])) /\
  (forall f info,
     fs.Open wrpr path = Ok f -> fs.Stat f = Ok info -> fs.IsDir info = true ->
     let index := filepath_Join path "index.html" in
     (forall g closed,
        wrapperFS_Open wrpr path = (Ok g, closed) ->
        g = f /\ closed = [] /\ is_ok (fs.Open wrpr index) = true) /\
     (is_ok (fs.Open wrpr index) = true ->
      wrapperFS_Open wrpr path = (Ok f, [])) /\
     (forall err,
        fs.Open wrpr index = Err err ->
        wrapperFS_Open wrpr path
          = (Err (match fs.Close f with
                  | Some closeErr => closeErr
                  | None => err
                  end), [f]))).
Proof.
  split.
  - intros err Hopen. unfold wrapperFS_Open. now rewrite Hopen.
  - intros f info Hopen Hstat Hdir index. unfold wrapperFS_Open.
    rewrite Hopen, Hstat, Hdir. fold index.
    destruct (fs.Open wrpr index) as [i|err] eqn:Hindex.
    + split; [|split].
      * intros g closed [= <- <-]. now repeat split.
      * reflexivity.
      * discriminate.
    + split; [|split].
      * intros g closed. destruct (fs.Close f); discriminate.
      * discriminate.
      * intros err' [= <-]. now destruct (fs.Close f).
Qed.

(** C3 (amended) over a root without an index file: a missing path keeps
    its error, and the root itself is closed and refused. *)
Lemma C3_witness :
  (wrapperFS_Open (H:=Examples.serverEnv) Examples.assets "missing").1
    = Err (ErrNotExist "missing") /\
  exists f,
    wrapperFS_Open (H:=Examples.serverEnv) Examples.assets "."
      = (Err (ErrNotExist "index.html"), [f]).
Proof.
  pose proof (C3_directory_needs_index (H:=Examples.serverEnv)
                Examples.assets "missing") as [Habsent _].
  pose proof (C3_directory_needs_index (H:=Examples.serverEnv)
                Examples.assets ".") as [_ Hdir].
  split.
  - rewrite (Habsent (ErrNotExist "missing")); reflexivity.
  - exists (Examples.directory ["app.js"] None).
    destruct (Hdir (Examples.directory ["app.js"] None) (fs.mkFileInfo true)
                eq_refl eq_refl eq_refl) as (_ & _ & Hmiss).
    exact (Hmiss (ErrNotExist "index.html") eq_refl).
Defined.

(** C9, as stated, fails for the requests the guard answers by itself:
    the logger wraps the file server, not the guard, and a request for a
    hidden path gets its not-found reply with no access line. *)
Lemma C9_counterexample :
  http.status
    (http.run http.reliable
       (Examples.handler "production" false Examples.site (Examples.GET "/.env"))
       http.fresh).1 = Some 404%Z /\
  http.log
    (http.run http.reliable
       (Examples.handler "production" false Examples.site (Examples.GET "/.env"))
       http.fresh).1 = [] /\
  List.length
    (accessLines
       (http.log
          (http.run http.reliable
             (Examples.handler "production" false Examples.site
                (Examples.GET "/.env"))
             http.fresh).1)) <> 1%nat.
Proof.
  split; [vm_compute; reflexivity|]. split; [vm_compute; reflexivity|].
  vm_compute. discriminate.
Qed.

(** C9 (amended): a handler wrapped by the logger runs as it would on the
    writer itself, and when it has completed exactly one line is added to
    the log, after everything the handler did: the access line, which
    holds the remote address, the protocol, the method and the request
    URI without carriage returns and line feeds, all four read from the
    request as the handler left it, and the status of the handler's last
    [WriteHeader] call, 200 when it made none. The asset handler emits
    that line, once, for the requests it hands to the file server, with
    the request as the file server leaves it, and emits no access line
    for any other request. *)
Theorem C9_access_log_line `{ServerEnv} (net : http.Network) :
  (forall (next : http.Handler) (r : http.Request) (w : http.world),
     http.writeHeaderCalls w = [] ->
     http.run net (logRequest next r) w
       = withAccessLine (http.run net (http.tracked (next r) r) w)) /\
  (forall (next : http.Handler) (r : http.Request) (w : http.world),
     (http.run net (http.tracked (next r) r) w).1 = (http.run net (next r) w).1 /\
     ((http.run net (http.tracked (next r) r) w).2 = None <->
      (http.run net (next r) w).2 = None)) /\
  (forall (r : http.Request) (RetCode : Z),
     accessLine r RetCode =
       http.Printf "%s - %s %s %s (%d)"
         [http.ArgS (http.RemoteAddr r); http.ArgS (http.Proto r);
          http.ArgS (http.Method r);
          http.ArgS (withoutCRLF (RequestURI (http.Url r)));
          http.ArgD RetCode] /\
     isAccessLine (accessLine r RetCode) = true /\
     forall c, c ∈ list_ascii_of_string (withoutCRLF (RequestURI (http.Url r))) ->
               c <> CR /\ c <> LF) /\
  (forall (vg : VitGo.t) (serveDir : fs.FS) (r : http.Request),
     match served vg serveDir r with
     | Some (fsys, r') =>
         http.run net (guardedFileServer vg serveDir r) http.fresh
           = withAccessLine
               (http.run net (http.tracked (http_FileServer fsys r') r')
                         (logged (debugLog vg serveDir r)))
     | None =>
         accessLines
           (http.log
              (http.run net (guardedFileServer vg serveDir r) http.fresh).1)
           = []
     end).
Proof.
  split; [intros next r w; apply run_logRequest|].
  split.
  { intros next r w.
    destruct (run_tracked net (next r) r w) as (Hw & Hp & _). now split. }
  split.
  - intros r RetCode. split; [apply accessLine_fields|].
    split; [reflexivity|]. intros c. apply withoutCRLF_clean.
  - intros vg serveDir r. unfold served. rewrite guardedFileServer_cases.
    destruct (guardPasses r); cbn [andb];
      [|apply answeredByGuard_no_access].
    unfold debugListing, debugLog.
    destruct (VitGo.Debug vg); cbn [negb orb].
    + cbn [http.run]. rewrite strings_Remove_CRLF.
      destruct (fs.ReadDir serveDir ".") as [names|err]; cbn [is_ok].
      * rewrite run_logEntries.
        pose (w' := logged
               (http.Println
                  ["entered FS"; withoutCRLF (http.Path (http.Url r))]
                :: map (fun name => http.Println [name]) names)).
        match goal with |- context [http.run net (dispatch vg serveDir r) ?w] =>
          change w with w'
        end.
        pose proof (run_dispatch net vg serveDir r w' eq_refl) as Hd.
        destruct (target vg serveDir r) as [[fsys r']|]; [exact Hd|].
        rewrite Hd. unfold w', logged, appendLog, accessLines.
        cbn [http.log http.fresh app List.filter isAccessLine].
        clear Hd. induction names as [|name names IH]; [reflexivity | exact IH].
      * cbn [http.run].
        match goal with |- context [http.run net (http.NotFound r) ?w] =>
          now rewrite (proj1 (run_NotFound net r w)) end.
    + pose proof (run_dispatch net vg serveDir r http.fresh eq_refl) as Hd.
      destruct (target vg serveDir r) as [[fsys r']|].
      * exact Hd.
      * now rewrite Hd.
Qed.

(** C9 (amended) at a production request for a bundle, and at a
    development request for a script: the log is the one access line. In
    development the file server is called with the path [app.js] and
    puts the slash back before the line is written. *)
Lemma C9_witness :
  http.log
    (http.run http.reliable
       (Examples.handler "production" false Examples.site
          (Examples.GET "/bundle.js"))
       http.fresh).1
  = [http.Printf "%s - %s %s %s (%d)"
       [http.ArgS "192.0.2.7:51234"; http.ArgS "HTTP/1.1"; http.ArgS "GET";
        http.ArgS "/bundle.js"; http.ArgD 200]] /\
  http.log
    (http.run http.reliable
       (Examples.handler "development" false Examples.site
          (Examples.GET "/app.js"))
       http.fresh).1
  = [http.Printf "%s - %s %s %s (%d)"
       [http.ArgS "192.0.2.7:51234"; http.ArgS "HTTP/1.1"; http.ArgS "GET";
        http.ArgS "/app.js"; http.ArgD 200]].
Proof.
  pose proof (proj2 (proj2 (proj2 (C9_access_log_line (H:=Examples.serverEnv)
                                     http.reliable)))) as Hserved.
  pose proof (Hserved
                (VitGo.mk Examples.site "frontend" "dist" "production" false)
                (wrapperFS (H:=Examples.serverEnv) Examples.site)
                (Examples.GET "/bundle.js")) as Hprod.
  pose proof (Hserved
                (VitGo.mk Examples.site "frontend" "dist" "development" false)
                (wrapperFS (H:=Examples.serverEnv) Examples.site)
                (Examples.GET "/app.js")) as Hdev.
  clear Hserved. vm_compute in Hprod. vm_compute in Hdev. vm_compute.
  split.
  - exact (f_equal (fun o => http.log o.1) Hprod).
  - exact (f_equal (fun o => http.log o.1) Hdev).
Defined.

(** ** Further properties of the code *)

(** *** The version pattern *)

(** X1: [getSemVer] against the pattern read as a grammar. A text that is
    some carets followed by three digit runs with dots between gives its
    first run and the dotted triple; every other text (a tilde range, a
    tag after the patch number, two numbers, surrounding blanks, the
    empty text) gives two empty strings. *)
Theorem getSemVer_grammar (verStr : string) :
  (forall n major minor patch,
     digitRun major -> digitRun minor -> digitRun patch ->
     verStr = versionText n major minor patch ->
     getSemVer verStr = (major, versionText 0 major minor patch)) /\
  ((forall n major minor patch,
      digitRun major -> digitRun minor -> digitRun patch ->
      verStr <> versionText n major minor patch) ->
   getSemVer verStr = ("", "")) /\
  (getSemVer verStr <> ("", "") ->
   exists n major minor patch,
     digitRun major /\ digitRun minor /\ digitRun patch /\
     verStr = versionText n major minor patch).
Proof.
  split; [|split].
  - intros n major minor patch Hmajor Hminor Hpatch Hv.
    assert (Hm : SemVer.FindStringSubmatch verStr
                 = Some [verStr; versionText 0 major minor patch; major]).
    { apply FindStringSubmatch_iff. exists n, major, minor, patch.
      repeat split; try apply Hmajor; try apply Hminor; try apply Hpatch.
      exact Hv. }
    unfold getSemVer. now rewrite Hm.
  - intros Hno.
    destruct (SemVer.FindStringSubmatch verStr) as [ms|] eqn:Hm;
      [|now apply getSemVer_no_match].
    apply FindStringSubmatch_iff in Hm
      as (n & major & minor & patch & H1 & H2 & H3 & Hv & _).
    now destruct (Hno n major minor patch H1 H2 H3).
  - intros Hne.
    destruct (SemVer.FindStringSubmatch verStr) as [ms|] eqn:Hm.
    + apply FindStringSubmatch_iff in Hm
        as (n & major & minor & patch & H1 & H2 & H3 & Hv & _).
      exists n, major, minor, patch.
      repeat split; try apply H1; try apply H2; try apply H3. exact Hv.
    + now rewrite (getSemVer_no_match _ Hm) in Hne.
Qed.

(** X1 at a doubly careted version, and at four texts outside the
    grammar. *)
Lemma getSemVer_grammar_witness :
  getSemVer "^^1.22.333" = ("1", "1.22.333") /\
  getSemVer "~1.2.3" = ("", "") /\
  getSemVer "1.2.3-beta.1" = ("", "") /\
  getSemVer "1.2" = ("", "") /\
  getSemVer " 1.2.3" = ("", "").
Proof.
  split.
  - refine (proj1 (getSemVer_grammar "^^1.22.333") 2%nat "1" "22" "333" _ _ _
                  eq_refl); split; (discriminate || reflexivity).
  - repeat split; vm_compute; reflexivity.
Defined.

(** X2: parsing the full version that [getSemVer] returned gives the same
    pair again, a leading caret changes nothing, and the major version is
    a prefix of the full version. *)
Theorem getSemVer_stable (verStr : string) :
  getSemVer (getSemVer verStr).2 = getSemVer verStr /\
  getSemVer (String SemVer.caret verStr) = getSemVer verStr /\
  exists rest, (getSemVer verStr).2 = (getSemVer verStr).1 +:+ rest.
Proof.
  split; [|split].
  - destruct (SemVer.FindStringSubmatch verStr) as [ms|] eqn:Hm.
    + destruct (getSemVer_match _ _ Hm)
        as (n & major & minor & patch & H1 & H2 & H3 & _ & ->).
      cbn [snd].
      assert (Hfull : SemVer.FindStringSubmatch
                        (major +:+ String SemVer.dot (minor +:+ String SemVer.dot patch))
                      = Some [major +:+ String SemVer.dot (minor +:+ String SemVer.dot patch);
                              major +:+ String SemVer.dot (minor +:+ String SemVer.dot patch);
                              major]).
      { apply FindStringSubmatch_iff. exists 0%nat, major, minor, patch.
        repeat split; try apply H1; try apply H2; try apply H3. }
      unfold getSemVer. now rewrite Hfull.
    + rewrite (getSemVer_no_match _ Hm). reflexivity.
  - unfold getSemVer, SemVer.FindStringSubmatch.
    cbn [SemVer.dropCarets]. rewrite Ascii.eqb_refl.
    destruct (SemVer.digitsThenDot (SemVer.dropCarets verStr))
      as [[major r1]|]; [|reflexivity].
    destruct (SemVer.digitsThenDot r1) as [[minor r2]|]; [|reflexivity].
    destruct (SemVer.spanDigits r2) as [[|p patch] [|c r3]]; reflexivity.
  - destruct (SemVer.FindStringSubmatch verStr) as [ms|] eqn:Hm.
    + destruct (getSemVer_match _ _ Hm)
        as (n & major & minor & patch & _ & _ & _ & _ & ->).
      cbn [fst snd]. eauto.
    + rewrite (getSemVer_no_match _ Hm). exists "". reflexivity.
Qed.

(** *** The profile's version fields *)

(** X3: a profile carries the version of the matched framework only. The
    major version and the version field of the first match are the two
    parts of that framework's manifest entry, the version field of every
    other framework is empty; a vanilla profile has no major version and
    no framework version at all; the hash is never set. *)
Theorem analyzePackageJSON_versions (pkgJSON : PackageJSON.t)
    (out : JSAppParams.t) :
  analyzePackageJSON pkgJSON = Some out ->
  JSAppParams.JSHash out = "" /\
  match firstMatch pkgJSON with
  | Some framework =>
      exists vers,
        candidateLookup pkgJSON framework = Some vers /\
        JSAppParams.MajorVer out = (getSemVer vers).1 /\
        versionFieldOf framework out = (getSemVer vers).2 /\
        Forall (fun other => other <> framework -> versionFieldOf other out = "")
               supported
  | None =>
      JSAppParams.MajorVer out = "" /\
      Forall (fun other => versionFieldOf other out = "") supported
  end.
Proof.
  unfold analyzePackageJSON, firstMatch, frameworks, supported, candidateLookup.
  destruct (PackageJSON.DevDependencies pkgJSON !! "vite") as [viteVers|];
    [|discriminate].
  destruct (getSemVer viteVers) as [major full].
  cbn [rangeSupported String.eqb Ascii.eqb Bool.eqb List.find].
  destruct (PackageJSON.DevDependencies pkgJSON !! "typescript") as [ts|];
    (destruct (PackageJSON.Dependencies pkgJSON !! "vue") as [v1|] eqn:E1;
     [| destruct (PackageJSON.Dependencies pkgJSON !! "react") as [v2|] eqn:E2;
      [| destruct (PackageJSON.Dependencies pkgJSON !! "preact") as [v3|] eqn:E3;
       [| destruct (PackageJSON.DevDependencies pkgJSON !! "svelte")
            as [v4|] eqn:E4;
        [| destruct (PackageJSON.Dependencies pkgJSON !! "lit")
             as [v5|] eqn:E5]]]]).
  all: cbn -[lookup].
  all: repeat match goal with
         | |- context [getSemVer ?v] => destruct (getSemVer v) eqn:?
         end.
  all: cbn -[lookup].
  all: intros [= <-]; cbn -[lookup].
  all: split; [reflexivity|].
  all: lazymatch goal with
       | |- ex _ =>
           eexists; split; [eassumption|];
           repeat match goal with H : getSemVer _ = _ |- _ => rewrite H end;
           split; [reflexivity|]; split; [reflexivity|]
       | |- _ => split; [reflexivity|]
       end.
  all: repeat match goal with |- Forall _ _ => constructor end.
  all: first [reflexivity | intros Hne; first [reflexivity | now destruct Hne]].
Qed.

(** X3 at the scenario of the specification: vite [^4.1.0], typescript and
    react [18.2.0]. *)
Lemma analyzePackageJSON_versions_witness :
  exists out,
    analyzePackageJSON
      (Examples.manifest Examples.reactTyped.1 Examples.reactTyped.2) = Some out /\
    JSAppParams.MajorVer out = "18" /\
    JSAppParams.ReactVersion out = "18.2.0" /\
    JSAppParams.VueVersion out = "".
Proof.
  assert (Hout : analyzePackageJSON
            (Examples.manifest Examples.reactTyped.1 Examples.reactTyped.2)
          = Some (JSAppParams.mk "" "4.1.0" "4" "react" "18" "src/main.tsx" true
                                 false "" "18.2.0" "" "" ""))
    by (vm_compute; reflexivity).
  eexists. split; [exact Hout|].
  pose proof (analyzePackageJSON_versions _ _ Hout) as [_ Hfields].
  vm_compute. repeat split.
Defined.

(** *** The resolver: failures, what a pass leaves filled, and order *)

Lemma parsePackageJSON_manifestPath `{ResolverEnv} (vc : ViteConfig.t) :
  parsePackageJSON (projectRootDefaulted vc) =
  match fs.ReadFile (ViteConfig.FS vc) (manifestPath vc) with
  | Err err => Err err
  | Ok buf => json_Unmarshal buf
  end.
Proof.
  unfold parsePackageJSON, manifestPath.
  rewrite projectRootDefaulted_path.
  replace (ViteConfig.FS (projectRootDefaulted vc)) with (ViteConfig.FS vc)
    by (unfold projectRootDefaulted; now destruct (String.eqb _ _)).
  destruct (fs.ReadFile _ _) as [buf|err]; [|reflexivity].
  now destruct (json_Unmarshal buf).
Qed.

Lemma analyzePackageJSON_None (pkgJSON : PackageJSON.t) :
  analyzePackageJSON pkgJSON = None <->
  PackageJSON.DevDependencies pkgJSON !! "vite" = None.
Proof.
  unfold analyzePackageJSON.
  destruct (PackageJSON.DevDependencies pkgJSON !! "vite") as [v|];
    [|now split].
  destruct (getSemVer v). split; discriminate.
Qed.

Lemma fillIfEmpty_twice (current value other : string) :
  value <> "" ->
  fillIfEmpty (fillIfEmpty current value) other = fillIfEmpty current value.
Proof. intros Hne. unfold fillIfEmpty. repeat case_bool_decide; congruence. Qed.

Lemma fillIfEmpty_nonempty (current value : string) :
  value <> "" -> fillIfEmpty current value <> "".
Proof. intros Hne. unfold fillIfEmpty. now case_bool_decide. Qed.

(** The framework name of a profile is one of six, none of them empty,
    and only lit has an empty entry point. *)
Lemma analyze_platform (pkgJSON : PackageJSON.t) (out : JSAppParams.t) :
  analyzePackageJSON pkgJSON = Some out ->
  JSAppParams.PackageType out <> "" /\
  (JSAppParams.EntryPoint out = "" -> JSAppParams.PackageType out = "lit").
Proof.
  intros Hout.
  destruct (analyze_shape _ _ Hout) as (v & _ & _ & _ & _ & Htype & _ & Hentry).
  assert (Hin : In (JSAppParams.PackageType out)
                   ["vue"; "react"; "preact"; "svelte"; "lit"; "vanilla"]).
  { rewrite Htype. unfold firstMatch.
    destruct (List.find _ frameworks) as [c|] eqn:Hfind; cbn.
    - apply find_some in Hfind as [Hc _]. unfold frameworks in Hc.
      cbn in Hc. tauto.
    - tauto. }
  rewrite Hentry. cbn in Hin.
  destruct Hin as [<-|[<-|[<-|[<-|[<-|[<-|[]]]]]]];
    (split; [discriminate|]);
    destruct (JSAppParams.HasTypeScript out); cbn; first [reflexivity | discriminate].
Qed.

(** X4: the development pass fails in exactly three ways, and always the
    same way. It returns the error of reading the manifest at its place
    in the store, else the error of decoding it, else "invalid
    configuration" when the decoded manifest has no vite development
    dependency; and whenever it fails, the configuration has its project
    root defaulted and nothing else changed. *)
Theorem SetDevelopmentDefaults_failures `{ResolverEnv} (vc : ViteConfig.t) :
  (forall err,
     (SetDevelopmentDefaults vc).2 = Some err <->
     fs.ReadFile (ViteConfig.FS vc) (manifestPath vc) = Err err \/
     (exists buf,
        fs.ReadFile (ViteConfig.FS vc) (manifestPath vc) = Ok buf /\
        json_Unmarshal buf = Err err) \/
     (exists buf pkgJSON,
        fs.ReadFile (ViteConfig.FS vc) (manifestPath vc) = Ok buf /\
        json_Unmarshal buf = Ok pkgJSON /\
        PackageJSON.DevDependencies pkgJSON !! "vite" = None /\
        err = ErrMsg "invalid configuration")) /\
  ((SetDevelopmentDefaults vc).2 <> None ->
   (SetDevelopmentDefaults vc).1 = projectRootDefaulted vc).
Proof.
  rewrite SetDevelopmentDefaults_spec, parsePackageJSON_manifestPath.
  destruct (fs.ReadFile _ _) as [buf|rerr].
  - destruct (json_Unmarshal buf) as [pkgJSON|derr] eqn:Hdec.
    + destruct (analyzePackageJSON pkgJSON) as [defaults|] eqn:Ha; cbn.
      * split; [|congruence]. intros err. split; [discriminate|].
        intros [Hr|[(b & Hb & Hd)|(b & p & Hb & Hd & Hv & _)]].
        -- discriminate.
        -- injection Hb as <-. congruence.
        -- injection Hb as <-. assert (p = pkgJSON) as -> by congruence.
           apply analyzePackageJSON_None in Hv. congruence.
      * split; [|reflexivity]. intros err. split.
        -- intros [= <-]. right. right. exists buf, pkgJSON.
           repeat split; [exact Hdec|]. now apply analyzePackageJSON_None.
        -- intros [Hr|[(b & Hb & Hd)|(b & p & _ & _ & _ & ->)]];
             [discriminate| |reflexivity].
           injection Hb as <-. congruence.
    + cbn. split; [|reflexivity]. intros err. split.
      * intros [= <-]. right. left. eauto.
      * intros [Hr|[(b & Hb & Hd)|(b & p & Hb & Hd & _)]].
        -- discriminate.
        -- injection Hb as <-. congruence.
        -- injection Hb as <-. congruence.
  - cbn. split; [|reflexivity]. intros err. split.
    + intros [= <-]. now left.
    + intros [Hr|[(b & Hb & _)|(b & p & Hb & _)]];
        [congruence | discriminate | discriminate].
Qed.

(** X4 at an empty configuration over an embedded store that holds the
    manifest at its root, where the pass does not look. *)
Lemma SetDevelopmentDefaults_failures_witness :
  let vc :=
    Examples.emptyConfig
      (Examples.embedded (Examples.project Examples.reactTyped)) in
  (@SetDevelopmentDefaults Examples.resolverEnv vc).2
    = Some (ErrNotExist "frontend/package.json") /\
  ViteConfig.JSProjectPath (@SetDevelopmentDefaults Examples.resolverEnv vc).1
    = "frontend".
Proof.
  cbv zeta.
  pose proof (@SetDevelopmentDefaults_failures Examples.resolverEnv
                (Examples.emptyConfig
                   (Examples.embedded (Examples.project Examples.reactTyped))))
    as [Hiff Hsame].
  assert (Herr : (@SetDevelopmentDefaults Examples.resolverEnv
                    (Examples.emptyConfig
                       (Examples.embedded
                          (Examples.project Examples.reactTyped)))).2
                 = Some (ErrNotExist "frontend/package.json")).
  { apply Hiff. left. vm_compute. reflexivity. }
  split; [exact Herr|].
  rewrite Hsame; [reflexivity|]. rewrite Herr. discriminate.
Defined.

(** X5: what a successful pass leaves filled. After the development pass
    the project root, the platform, the mount prefix, the dev-server
    domain and the detected profile are set, and so is the port when the
    two port constants are not empty; the entry point can stay empty, but
    only when the operator gave none and the framework is lit. (The
    build-tool version can stay empty too.) The production pass never
    fails and leaves the project root, the output subdirectory and the
    mount prefix set. *)
Theorem passes_populate `{ResolverEnv} (vc : ViteConfig.t) :
  (forall vc',
     SetDevelopmentDefaults vc = (vc', None) ->
     ViteConfig.JSProjectPath vc' <> "" /\
     ViteConfig.Platform vc' <> "" /\
     ViteConfig.URLPrefix vc' <> "" /\
     ViteConfig.DevServerDomain vc' <> "" /\
     (DEFAULT_PORT_V2 <> "" -> DEFAULT_PORT_V3 <> "" ->
      ViteConfig.DevServerPort vc' <> "") /\
     exists detected,
       ViteConfig.DevDefaults vc' = Some detected /\
       (ViteConfig.EntryPoint vc' = "" ->
        ViteConfig.EntryPoint vc = "" /\
        JSAppParams.PackageType detected = "lit")) /\
  (SetProductionDefaults vc).2 = None /\
  ViteConfig.JSProjectPath (SetProductionDefaults vc).1 <> "" /\
  ViteConfig.AssetsPath (SetProductionDefaults vc).1 <> "" /\
  ViteConfig.URLPrefix (SetProductionDefaults vc).1 <> "".
Proof.
  split.
  - intros vc'. rewrite SetDevelopmentDefaults_spec.
    destruct (parsePackageJSON _) as [pkgJSON|err]; [|discriminate].
    destruct (analyzePackageJSON pkgJSON) as [defaults|] eqn:Ha; [|discriminate].
    intros [= <-]. destruct (analyze_platform _ _ Ha) as [Htype Hentry]. cbn.
    split; [now apply fillIfEmpty_nonempty|].
    split; [now apply fillIfEmpty_nonempty|].
    split; [now apply fillIfEmpty_nonempty|].
    split; [now apply fillIfEmpty_nonempty|].
    split.
    + intros H2 H3. apply fillIfEmpty_nonempty. unfold portFor.
      now case_bool_decide.
    + exists defaults. split; [reflexivity|]. unfold fillIfEmpty.
      case_bool_decide as Hop; [|congruence]. intros He. auto.
  - rewrite SetProductionDefaults_spec. cbn.
    repeat split; now apply fillIfEmpty_nonempty.
Qed.

(** X5 at a project with a typed react manifest. *)
Lemma passes_populate_witness :
  exists vc',
    @SetDevelopmentDefaults Examples.resolverEnv
      (Examples.emptyConfig (Examples.project Examples.reactTyped)) = (vc', None) /\
    ViteConfig.Platform vc' <> "" /\ ViteConfig.URLPrefix vc' <> "".
Proof.
  eexists. split; [vm_compute; reflexivity|].
  destruct (proj1 (@passes_populate Examples.resolverEnv
                     (Examples.emptyConfig (Examples.project Examples.reactTyped)))
                  _ ltac:(vm_compute; reflexivity))
    as (_ & Hplatform & Hprefix & _).
  split; [exact Hplatform | exact Hprefix].
Defined.

(** X6: the two passes do not commute, and differ in the mount prefix
    only. The production pass after a successful development pass can
    only fill the output subdirectory, so the prefix stays the
    development one; the development pass after the production pass
    succeeds as well and gives the same configuration except that an
    unset prefix has become the production one. *)
Theorem pass_order `{ResolverEnv} (vc vc1 : ViteConfig.t) :
  SetDevelopmentDefaults vc = (vc1, None) ->
  (SetProductionDefaults vc1).1
    = ViteConfig.set_AssetsPath (fillIfEmpty (ViteConfig.AssetsPath vc) "dist") vc1 /\
  ViteConfig.URLPrefix (SetProductionDefaults vc1).1
    = fillIfEmpty (ViteConfig.URLPrefix vc) "/src/" /\
  SetDevelopmentDefaults (SetProductionDefaults vc).1
    = (ViteConfig.set_URLPrefix
         (fillIfEmpty (ViteConfig.URLPrefix vc) "/assets/")
         (SetProductionDefaults vc1).1, None).
Proof.
  rewrite SetDevelopmentDefaults_spec.
  destruct (parsePackageJSON (projectRootDefaulted vc)) as [pkgJSON|err] eqn:Hp;
    [|discriminate].
  destruct (analyzePackageJSON pkgJSON) as [defaults|] eqn:Ha; [|discriminate].
  intros [= <-]. rewrite !SetProductionDefaults_spec. cbn [fst].
  assert (Hprod : resolvedProduction (resolvedDevelopment vc defaults)
                  = ViteConfig.set_AssetsPath
                      (fillIfEmpty (ViteConfig.AssetsPath vc) "dist")
                      (resolvedDevelopment vc defaults)).
  { unfold resolvedProduction, resolvedDevelopment, ViteConfig.set_AssetsPath.
    cbn. now rewrite !fillIfEmpty_twice by discriminate. }
  split; [exact Hprod|]. split.
  - rewrite Hprod. reflexivity.
  - rewrite SetDevelopmentDefaults_spec.
    rewrite (parsePackageJSON_ext _ (projectRootDefaulted vc)), Hp, Ha.
    + rewrite Hprod.
      unfold resolvedProduction, resolvedDevelopment, ViteConfig.set_AssetsPath,
        ViteConfig.set_URLPrefix.
      cbn. now rewrite !fillIfEmpty_twice by discriminate.
    + unfold projectRootDefaulted.
      destruct (String.eqb _ _), (String.eqb _ _); reflexivity.
    + rewrite !projectRootDefaulted_path. cbn.
      now rewrite fillIfEmpty_idem.
Qed.

(** X6 at a project with a typed react manifest: [/src/] one way,
    [/assets/] the other. *)
Lemma pass_order_witness :
  let vc := Examples.emptyConfig (Examples.project Examples.reactTyped) in
  ViteConfig.URLPrefix
    (SetProductionDefaults (@SetDevelopmentDefaults Examples.resolverEnv vc).1).1
    = "/src/" /\
  ViteConfig.URLPrefix
    (@SetDevelopmentDefaults Examples.resolverEnv (SetProductionDefaults vc).1).1
    = "/assets/".
Proof.
  cbv zeta.
  destruct (@pass_order Examples.resolverEnv
              (Examples.emptyConfig (Examples.project Examples.reactTyped))
              _ ltac:(vm_compute; reflexivity)) as (_ & Hdev & Hprod).
  split.
  - vm_compute. reflexivity.
  - rewrite Hprod. vm_compute. reflexivity.
Defined.

(** X7: [getViteVersion] fails only on a configuration with neither a
    version nor a detected profile, and then changes nothing. When it
    succeeds it returns the operator's version, or else the detected
    major version (which can be empty), the version field holds what it
    returned, nothing else has changed, and calling it again returns the
    same and changes nothing. *)
Theorem getViteVersion_cases (vc : ViteConfig.t) :
  (forall vc' err,
     getViteVersion vc = (vc', Err err) ->
     vc' = vc /\ err = ErrMsg "not Vite project" /\
     ViteConfig.ViteVersion vc = "" /\ ViteConfig.DevDefaults vc = None) /\
  (ViteConfig.ViteVersion vc = "" -> ViteConfig.DevDefaults vc = None ->
   getViteVersion vc = (vc, Err (ErrMsg "not Vite project"))) /\
  (forall vc' version,
     getViteVersion vc = (vc', Ok version) ->
     vc' = ViteConfig.set_ViteVersion version vc /\
     getViteVersion vc' = (vc', Ok version) /\
     (version = ViteConfig.ViteVersion vc /\ version <> "" \/
      ViteConfig.ViteVersion vc = "" /\
      exists detected,
        ViteConfig.DevDefaults vc = Some detected /\
        version = JSAppParams.ViteMajorVer detected)).
Proof.
  destruct vc as [store env root assets version platform entry prefix port
                  domain https detected].
  unfold getViteVersion. cbn.
  destruct (String.eqb_spec version "") as [->|Hset]; cbn.
  - destruct detected as [d|].
    + split; [discriminate|]. split; [discriminate|].
      intros vc' v [= <- <-]. cbn. split; [reflexivity|]. split.
      * destruct (String.eqb_spec (JSAppParams.ViteMajorVer d) "") as [->|Hne];
          reflexivity.
      * right. eauto.
    + split; [|split; [reflexivity|discriminate]].
      intros vc' err [= <- <-]. now repeat split.
  - split; [discriminate|]. split; [congruence|].
    intros vc' v [= <- <-]. cbn. split; [reflexivity|]. split.
    + now rewrite (proj2 (String.eqb_neq _ _) Hset).
    + now left.
Qed.

(** X7 on a configuration with a detected profile and no version, and on
    an empty configuration. *)
Lemma getViteVersion_cases_witness :
  let vc := Examples.preset Examples.assets in
  getViteVersion vc = (ViteConfig.set_ViteVersion "4" vc, Ok "4") /\
  getViteVersion (ViteConfig.set_ViteVersion "4" vc)
    = (ViteConfig.set_ViteVersion "4" vc, Ok "4") /\
  getViteVersion (Examples.emptyConfig Examples.assets)
    = (Examples.emptyConfig Examples.assets, Err (ErrMsg "not Vite project")).
Proof.
  cbv zeta.
  assert (Hcall : getViteVersion (Examples.preset Examples.assets)
                  = (ViteConfig.set_ViteVersion "4"
                       (Examples.preset Examples.assets), Ok "4"))
    by reflexivity.
  destruct (proj2 (proj2 (getViteVersion_cases (Examples.preset Examples.assets)))
              _ _ Hcall) as (_ & Hagain & _).
  split; [exact Hcall|]. split; [exact Hagain|].
  exact (proj1 (proj2 (getViteVersion_cases
                         (Examples.emptyConfig Examples.assets)))
               eq_refl eq_refl).
Defined.

(** X8: the base URL after a successful development pass is
    [scheme://domain:port], with [https] exactly when the flag is set,
    the operator's domain or [localhost], and the operator's port or the
    port for the version in force. *)
Theorem baseURL_after_development `{ResolverEnv} (vc vc' : ViteConfig.t) :
  SetDevelopmentDefaults vc = (vc', None) ->
  exists detected,
    ViteConfig.DevDefaults vc' = Some detected /\
    buildDevServerBaseURL vc' =
      (if ViteConfig.HTTPS vc then "https" else "http") +:+ "://"
      +:+ fillIfEmpty (ViteConfig.DevServerDomain vc) "localhost" +:+ ":"
      +:+ fillIfEmpty (ViteConfig.DevServerPort vc)
            (portFor (fillIfEmpty (ViteConfig.ViteVersion vc)
                                  (JSAppParams.ViteMajorVer detected))).
Proof.
  rewrite SetDevelopmentDefaults_spec.
  destruct (parsePackageJSON _) as [pkgJSON|err]; [|discriminate].
  destruct (analyzePackageJSON pkgJSON) as [defaults|]; [|discriminate].
  intros [= <-]. exists defaults. split; reflexivity.
Qed.

(** X8 at a project with a typed react manifest, flag off. *)
Lemma baseURL_after_development_witness :
  exists vc',
    @SetDevelopmentDefaults Examples.resolverEnv
      (Examples.emptyConfig (Examples.project Examples.reactTyped)) = (vc', None) /\
    buildDevServerBaseURL vc' = "http://localhost:5173".
Proof.
  eexists. split; [vm_compute; reflexivity|].
  destruct (@baseURL_after_development Examples.resolverEnv
              (Examples.emptyConfig (Examples.project Examples.reactTyped))
              _ ltac:(vm_compute; reflexivity)) as (detected & _ & Hurl).
  vm_compute. reflexivity.
Defined.

(** *** The asset handler past the guard *)

Section HandlerFacts.
Context `{ServerEnv}.

Lemma run_logPrefix (net : http.Network) (calls : list http.logCall)
    (k : http.prog unit) (w : http.world) :
  http.run net (logPrefix calls k) w = http.run net k (appendLog calls w).
Proof.
  revert w. induction calls as [|call calls IH]; intros w; cbn.
  - unfold appendLog. rewrite app_nil_r. now destruct w.
  - rewrite IH. unfold appendLog. cbn. now rewrite <- app_assoc.
Qed.

Lemma reply_logPrefix (net : http.Network) (calls : list http.logCall)
    (k : http.prog unit) :
  http.reply net (logPrefix calls k) = http.reply net k.
Proof.
  induction calls as [|call calls IH]; [reflexivity|].
  cbn. now rewrite reply_Log.
Qed.

Lemma logEntries_logPrefix (names : list string) (k : http.prog unit) :
  logEntries names k
    = logPrefix (map (fun name => http.Println [name]) names) k.
Proof.
  unfold logEntries, logPrefix.
  induction names as [|n names IH]; cbn; [reflexivity | now f_equal].
Qed.

(** Past the guard and the listing, the handler is the debug lines and
    then the environment branch. *)
Lemma guarded_program (vg : VitGo.t) (serveDir : fs.FS) (r : http.Request) :
  guardPasses r = true ->
  VitGo.Debug vg = false \/ is_ok (fs.ReadDir serveDir ".") = true ->
  guardedFileServer vg serveDir r
    = logPrefix (debugLog vg serveDir r) (dispatch vg serveDir r).
Proof.
  intros Hguard Hlist. rewrite guardedFileServer_cases, Hguard.
  unfold debugListing, debugLog.
  destruct (VitGo.Debug vg); [|reflexivity].
  destruct Hlist as [|Hok]; [discriminate|].
  destruct (fs.ReadDir serveDir ".") as [names|err]; [|discriminate].
  rewrite strings_Remove_CRLF, logEntries_logPrefix. reflexivity.
Qed.

(** Past the guard with a failed listing, the handler logs twice and
    answers not-found. *)
Lemma guarded_listing_failure (vg : VitGo.t) (serveDir : fs.FS)
    (r : http.Request) (err : error) :
  guardPasses r = true ->
  VitGo.Debug vg = true ->
  fs.ReadDir serveDir "." = Err err ->
  guardedFileServer vg serveDir r
    = http.Log (http.Println
                  ["entered FS"; withoutCRLF (http.Path (http.Url r))])
        (http.Log (http.Println
                     ["could not read the asset dir"; error_text err])
           (http.NotFound r)).
Proof.
  intros Hguard Hdebug Hlist. rewrite guardedFileServer_cases, Hguard.
  unfold debugListing. now rewrite Hdebug, Hlist, strings_Remove_CRLF.
Qed.

(** The environment branch as a program: outside production the logged
    file server runs on the new request of [http.StripPrefix]. *)
Lemma dispatch_target (vg : VitGo.t) (serveDir : fs.FS) (r : http.Request) :
  dispatch vg serveDir r =
  match target vg serveDir r with
  | Some (fsys, r') =>
      if bool_decide (VitGo.Environment vg = "production")
      then logRequest (http_FileServer fsys) r'
      else http.onCopy (logRequest (http_FileServer fsys) r')
  | None =>
      if bool_decide (VitGo.Environment vg = "production")
      then http.WriteHeader http.StatusNotFound (http.Return tt)
      else http.NotFound r
  end.
Proof.
  unfold target, dispatch.
  destruct (String.eqb_spec (VitGo.Environment vg) "production") as [Henv|Henv].
  - rewrite bool_decide_eq_true_2 by exact Henv.
    now destruct (fs_Sub serveDir (VitGo.AssetPath vg)).
  - rewrite bool_decide_eq_false_2 by exact Henv.
    unfold http.StripPrefix. cbn [String.eqb]. rewrite !TrimPrefix_slash.
    destruct (stripSlash (http.Path (http.Url r))) as [p|] eqn:Hp.
    2:{ cbn [default from_option id]. now rewrite Nat.ltb_irrefl. }
    cbn [default from_option id]. rewrite (stripSlash_shorter _ _ Hp).
    cbn [andb].
    destruct (String.eqb_spec (http.RawPath (http.Url r)) "") as [Hraw|Hraw].
    + rewrite bool_decide_eq_true_2 by exact Hraw. cbn [orb].
      rewrite Hraw. reflexivity.
    + rewrite bool_decide_eq_false_2 by exact Hraw. cbn [orb].
      destruct (stripSlash (http.RawPath (http.Url r))) as [rp|] eqn:Hrp.
      * cbn [default from_option id]. now rewrite (stripSlash_shorter _ _ Hrp).
      * cbn [default from_option id]. now rewrite Nat.ltb_irrefl.
Qed.

Lemma slice_from_one (s : string) :
  slice_from s 1 = match s with
                   | EmptyString => None
                   | String _ rest => Some rest
                   end.
Proof. destruct s as [|c [|c' s]]; reflexivity. Qed.

Lemma run_serveOneFile (net : http.Network) (r : http.Request)
    (data ctype : string) :
  http.run net (serveOneFile r data ctype) http.fresh =
  match net "" data with
  | None =>
      (http.mkWorld (Some 200%Z) [http.Add "Content-Type" ctype] data [] [],
       Some tt)
  | Some err =>
      (http.mkWorld (Some 200%Z) [http.Add "Content-Type" ctype] ""
         [http.Println ["could not write file:"; error_text err]] [],
       Some tt)
  end.
Proof. unfold serveOneFile. cbn. now destruct (net "" data). Qed.

(** The guard's own answers always end normally once the path could be
    stripped. *)
Lemma answeredByGuard_completes (net : http.Network) (r : http.Request) :
  http.Path (http.Url r) <> "" ->
  (http.run net (answeredByGuard r) http.fresh).2 = Some tt.
Proof.
  intros Hpath. unfold answeredByGuard. rewrite slice_from_one.
  destruct (http.Path (http.Url r)) as [|c rest]; [contradiction|].
  destruct (bool_decide _); [apply run_NotFound|].
  destruct (embedFiles_ReadFile _) as [bytes|err].
  - rewrite run_serveOneFile. now destruct (net "" bytes).
  - cbn [http.run]. apply run_NotFound.
Qed.

(** A logged handler, on the caller's request or on a copy, panics only
    when the handler does. *)
Lemma logged_panics (net : http.Network) (next : http.Handler)
    (r : http.Request) (w : http.world) (production : bool) :
  (http.run net (if production then logRequest next r
                 else http.onCopy (logRequest next r)) w).2 = None ->
  (http.run net (next r) w).2 = None.
Proof.
  assert (Hlog : (http.run net (logRequest next r) w).2 = None ->
                 (http.run net (next r) w).2 = None).
  { unfold logRequest. rewrite run_bind, run_serveWrapped.
    destruct (run_tracked net (next r) r w) as (_ & Hnone & _).
    destruct (http.run net (http.tracked (next r) r) w) as [w' [[[] r']|]];
      [discriminate|].
    intros _. now apply Hnone. }
  destruct production; [exact Hlog|]. now rewrite run_onCopy.
Qed.

End HandlerFacts.

(** X9: a request without a hidden segment whose last segment is
    [preamble.js] never reaches the store, the debug listing or the
    environment branch. When the embedded file can be read the reply has
    status 200 and the JavaScript content type, the body is the embedded
    bytes, or empty with one log line when the connection refuses the
    write, and the run ends normally either way; when it cannot be read
    the handler logs that and answers not-found. *)
Theorem preamble_served `{ServerEnv} (net : http.Network) (vg : VitGo.t)
    (serveDir : fs.FS) (r : http.Request) (rest : string) :
  slice_from (http.Path (http.Url r)) 1 = Some rest ->
  ~ Exists hidden (strings_Split rest "/") ->
  last_part (strings_Split rest "/") = "preamble.js" ->
  match embedFiles_ReadFile "react/preamble.js" with
  | Ok bytes =>
      guardedFileServer vg serveDir r
        = serveOneFile r bytes "application/javascript" /\
      http.run net (guardedFileServer vg serveDir r) http.fresh =
        match net "" bytes with
        | None =>
            (http.mkWorld (Some 200%Z)
               [http.Add "Content-Type" "application/javascript"] bytes [] [],
             Some tt)
        | Some err =>
            (http.mkWorld (Some 200%Z)
               [http.Add "Content-Type" "application/javascript"] ""
               [http.Println ["could not write file:"; error_text err]] [],
             Some tt)
        end
  | Err err =>
      guardedFileServer vg serveDir r
        = http.Log (http.Println ["could not load preamble:"; error_text err])
            (http.NotFound r)
  end.
Proof.
  intros Hrest Hno Hlast.
  assert (Hprog : guardedFileServer vg serveDir r = answeredByGuard r).
  { rewrite guardedFileServer_cases. unfold guardPasses. rewrite Hrest.
    cbv zeta. now rewrite (bool_decide_eq_true_2 _ Hlast), andb_false_r. }
  rewrite Hprog. unfold answeredByGuard.
  rewrite Hrest, (bool_decide_eq_false_2 _ Hno).
  destruct (embedFiles_ReadFile "react/preamble.js") as [bytes|err];
    [|reflexivity].
  split; [reflexivity | apply run_serveOneFile].
Qed.

(** X9 over a store that does not hold the support file, in production
    with the debug flag. *)
Lemma preamble_served_witness :
  http.run http.reliable
    (Examples.handler "production" true Examples.assets
       (Examples.GET "/assets/preamble.js"))
    http.fresh
  = (http.mkWorld (Some 200%Z)
       [http.Add "Content-Type" "application/javascript"] "/* preamble */"
       [] [],
     Some tt).
Proof.
  refine (proj2 (preamble_served (H:=Examples.serverEnv) http.reliable _ _
                   (Examples.GET "/assets/preamble.js") "assets/preamble.js"
                   eq_refl _ _)).
  - vm_compute. intros Hex.
    repeat (apply Exists_cons in Hex as [[s Hs]|Hex]; [discriminate Hs|]).
    now apply Exists_nil in Hex.
  - vm_compute. reflexivity.
Defined.

(** X10: the handler ends in a panic on a request with an empty path,
    where the prefix cannot be sliced off; on any other request its own
    code never panics: a run that ends in a panic is a run handed to the
    file server in which the file server panicked. *)
Theorem guarded_panics `{ServerEnv} (net : http.Network) (vg : VitGo.t)
    (serveDir : fs.FS) (r : http.Request) :
  (http.Path (http.Url r) = "" ->
   guardedFileServer vg serveDir r = http.Panic) /\
  (http.Path (http.Url r) <> "" ->
   (http.run net (guardedFileServer vg serveDir r) http.fresh).2 = None ->
   exists fsys r',
     served vg serveDir r = Some (fsys, r') /\
     (http.run net (http_FileServer fsys r')
               (logged (debugLog vg serveDir r))).2 = None).
Proof.
  split.
  - intros Hpath. unfold guardedFileServer. now rewrite Hpath.
  - intros Hpath. unfold served.
    destruct (guardPasses r) eqn:Hguard; cbn [andb].
    2:{ rewrite guardedFileServer_cases, Hguard.
        now rewrite (answeredByGuard_completes net r Hpath). }
    destruct (VitGo.Debug vg) eqn:Hdebug; cbn [negb orb].
    + destruct (fs.ReadDir serveDir ".") as [names|err] eqn:Hlist; cbn [is_ok].
      * rewrite guarded_program, run_logPrefix, dispatch_target
          by (try assumption; right; now rewrite Hlist).
        fold (logged (debugLog vg serveDir r)).
        destruct (target vg serveDir r) as [[fsys r']|].
        -- intros Hnone. exists fsys, r'. split; [reflexivity|].
           apply (logged_panics net _ _ _ _ Hnone).
        -- case_bool_decide; [discriminate|].
           now rewrite (proj1 (proj2 (run_NotFound net r _))).
      * rewrite (guarded_listing_failure vg serveDir r err) by assumption.
        cbn [http.run]. now rewrite (proj1 (proj2 (run_NotFound net r _))).
    + rewrite guarded_program, run_logPrefix, dispatch_target
        by (try assumption; now left).
      fold (logged (debugLog vg serveDir r)).
      destruct (target vg serveDir r) as [[fsys r']|].
      * intros Hnone. exists fsys, r'. split; [reflexivity|].
        apply (logged_panics net _ _ _ _ Hnone).
      * case_bool_decide; [discriminate|].
        now rewrite (proj1 (proj2 (run_NotFound net r _))).
Qed.

(** X10 at a request with an empty path. *)
Lemma guarded_panics_witness :
  Examples.handler "development" false Examples.site (Examples.GET "")
  = http.Panic.
Proof.
  exact (proj1 (guarded_panics (H:=Examples.serverEnv) http.reliable
                  (VitGo.mk Examples.site "frontend" "dist" "development" false)
                  (wrapperFS (H:=Examples.serverEnv) Examples.site)
                  (Examples.GET "")) eq_refl).
Defined.

(** X11: the access logger is transparent. Wrapping a handler changes
    nothing of what the client receives, whatever was sent before, and
    the wrapped run ends in a panic exactly when the handler's does. *)
Theorem logRequest_transparent `{ServerEnv} (net : http.Network)
    (next : http.Handler) (r : http.Request) (w : http.world) :
  visible (http.run net (logRequest next r) w).1
    = visible (http.run net (next r) w).1 /\
  ((http.run net (logRequest next r) w).2 = None <->
   (http.run net (next r) w).2 = None) /\
  http.reply net (logRequest next r) = http.reply net (next r).
Proof.
  assert (Hrun : forall w0,
            visible (http.run net (logRequest next r) w0).1
              = visible (http.run net (next r) w0).1 /\
            ((http.run net (logRequest next r) w0).2 = None <->
             (http.run net (next r) w0).2 = None)).
  { intros w0. unfold logRequest. rewrite run_bind, run_serveWrapped.
    destruct (run_tracked net (next r) r w0) as (Hw & Hnone & _).
    destruct (http.run net (http.tracked (next r) r) w0) as [w' [[[] r']|]];
      cbn [fst snd] in Hw, Hnone; cbn.
    - split; [now rewrite <- Hw|]. split; [discriminate|].
      intros Hn. apply Hnone in Hn. discriminate.
    - split; [now rewrite <- Hw|]. split; [intros _; now apply Hnone|reflexivity]. }
  destruct (Hrun w) as [Hv Hp]. split; [exact Hv|]. split; [exact Hp|].
  unfold http.reply. destruct (Hrun http.fresh) as [Hv0 Hp0].
  destruct (http.run net (logRequest next r) http.fresh) as [w1 r1].
  destruct (http.run net (next r) http.fresh) as [w2 r2]. cbn in Hv0, Hp0.
  rewrite (response_visible _ _ Hv0). f_equal.
  apply bool_decide_ext. exact Hp0.
Qed.

(** X12: with the debug flag, over a root that the store opens as a
    directory and that has no index file, the handler that [FileServer]
    returns answers not-found to every request that passes the guard:
    the guarded store refuses its own root, so the listing fails and the
    file server is never called. *)
Theorem debug_needs_root_index `{ServerEnv} (net : http.Network) (vg : VitGo.t)
    (target : fs.FS) (root : fs.File) (info : fs.FileInfo) (err : error)
    (r : http.Request) :
  correctEmbedFS (VitGo.DistFS vg) (VitGo.JSProjectPath vg) = Ok target ->
  VitGo.Debug vg = true ->
  fs.Open target "." = Ok root ->
  fs.Stat root = Ok info ->
  fs.IsDir info = true ->
  fs.Open target (filepath_Join "." "index.html") = Err err ->
  guardPasses r = true ->
  exists handler listErr,
    FileServer vg = Ok handler /\
    handler r
      = http.Log (http.Println
                    ["entered FS"; withoutCRLF (http.Path (http.Url r))])
          (http.Log (http.Println
                       ["could not read the asset dir"; error_text listErr])
             (http.NotFound r)) /\
    http.reply net (handler r) = http.reply net (http.NotFound r).
Proof.
  intros Hembed Hdebug Hopen Hstat Hdir Hindex Hguard.
  assert (Hlist : fs.ReadDir (wrapperFS target) "."
                  = Err (match fs.Close root with
                         | Some closeErr => closeErr
                         | None => err
                         end)).
  { unfold fs.ReadDir, wrapperFS, wrapperFS_Open. cbn [fs.Open fst].
    rewrite Hopen, Hstat, Hdir, Hindex. now destruct (fs.Close root). }
  eexists _, _. unfold FileServer. rewrite Hembed. split; [reflexivity|].
  rewrite (guarded_listing_failure vg (wrapperFS target) r _ Hguard Hdebug Hlist).
  split; [reflexivity|]. now rewrite !reply_Log.
Qed.

(** X12 at a request for the script of a root without an index file. *)
Lemma debug_needs_root_index_witness :
  http.reply http.reliable
    (Examples.handler "production" true Examples.assets (Examples.GET "/app.js"))
  = http.reply http.reliable (http.NotFound (Examples.GET "/app.js")).
Proof.
  destruct (debug_needs_root_index (H:=Examples.serverEnv) http.reliable
              (VitGo.mk Examples.assets "frontend" "dist" "production" true)
              Examples.assets (Examples.directory ["app.js"] None)
              (fs.mkFileInfo true) (ErrNotExist "index.html")
              (Examples.GET "/app.js")
              eq_refl eq_refl eq_refl eq_refl eq_refl eq_refl
              ltac:(vm_compute; reflexivity))
    as (handler & listErr & Hserver & _ & Hreply).
  injection Hserver as <-. exact Hreply.
Defined.

(** X13: a request that passes the guard and the listing and still is not
    handed to the file server gets one of two different not-found
    answers and no access line. In production, when the output
    subdirectory cannot be derived, the reply is a bare status 404 with
    no header and an empty body; in any other environment, when the path
    has no leading slash to strip, it is the not-found page. *)
Theorem unserved_replies `{ServerEnv} (net : http.Network) (vg : VitGo.t)
    (serveDir : fs.FS) (r : http.Request) :
  guardPasses r = true ->
  VitGo.Debug vg = false \/ is_ok (fs.ReadDir serveDir ".") = true ->
  target vg serveDir r = None ->
  http.log (http.run net (guardedFileServer vg serveDir r) http.fresh).1
    = debugLog vg serveDir r /\
  http.reply net (guardedFileServer vg serveDir r) =
    if bool_decide (VitGo.Environment vg = "production")
    then (http.mkResponse 404 [] "", false)
    else http.reply net (http.NotFound r).
Proof.
  intros Hguard Hlist Htarget.
  rewrite (guarded_program vg serveDir r Hguard Hlist).
  rewrite run_logPrefix, reply_logPrefix, dispatch_target, Htarget.
  case_bool_decide.
  - split; reflexivity.
  - split; [|reflexivity].
    rewrite (proj1 (run_NotFound net r _)). reflexivity.
Qed.

(** X13 in production with an output subdirectory name that is not a
    valid path. *)
Lemma unserved_replies_witness :
  http.reply http.reliable
    (guardedFileServer (H:=Examples.serverEnv)
       (VitGo.mk Examples.site "frontend" "" "production" false)
       (wrapperFS (H:=Examples.serverEnv) Examples.site)
       (Examples.GET "/bundle.js"))
  = (http.mkResponse 404 [] "", false).
Proof.
  exact (proj2 (unserved_replies (H:=Examples.serverEnv) http.reliable
                  (VitGo.mk Examples.site "frontend" "" "production" false)
                  (wrapperFS (H:=Examples.serverEnv) Examples.site)
                  (Examples.GET "/bundle.js")
                  ltac:(vm_compute; reflexivity) (or_introl eq_refl)
                  ltac:(vm_compute; reflexivity))).
Defined.

(** X15: which handles the guarded store returns and closes. A handle it
    returns is the one the store gave for the path, and it has closed
    nothing; a regular file goes through as it is; when [Stat] fails the
    error is returned and the handle is left open; and whenever it
    returns an error it has closed at most the handle of that path. *)
Theorem wrapperFS_Open_handles `{ServerEnv} (wrpr : fs.FS) (path : string) :
  (forall g closed,
     wrapperFS_Open wrpr path = (Ok g, closed) ->
     fs.Open wrpr path = Ok g /\ closed = []) /\
  (forall f info,
     fs.Open wrpr path = Ok f -> fs.Stat f = Ok info ->
     fs.IsDir info = false ->
     wrapperFS_Open wrpr path = (Ok f, [])) /\
  (forall f err,
     fs.Open wrpr path = Ok f -> fs.Stat f = Err err ->
     wrapperFS_Open wrpr path = (Err err, [])) /\
  (forall err closed,
     wrapperFS_Open wrpr path = (Err err, closed) ->
     closed = [] \/ exists f, fs.Open wrpr path = Ok f /\ closed = [f]).
Proof.
  split; [|split; [|split]].
  - intros g closed. unfold wrapperFS_Open.
    destruct (fs.Open wrpr path) as [f|oerr]; [|discriminate].
    destruct (fs.Stat f) as [info|serr]; [|discriminate].
    destruct (fs.IsDir info).
    + destruct (fs.Open wrpr (filepath_Join path "index.html")) as [i|ierr].
      * now intros [= <- <-].
      * destruct (fs.Close f); discriminate.
    + now intros [= <- <-].
  - intros f info Hopen Hstat Hdir. unfold wrapperFS_Open.
    now rewrite Hopen, Hstat, Hdir.
  - intros f err Hopen Hstat. unfold wrapperFS_Open.
    now rewrite Hopen, Hstat.
  - intros err closed. unfold wrapperFS_Open.
    destruct (fs.Open wrpr path) as [f|oerr];
      [|intros [= _ <-]; now left].
    destruct (fs.Stat f) as [info|serr]; [|intros [= _ <-]; now left].
    destruct (fs.IsDir info); [|discriminate].
    destruct (fs.Open wrpr (filepath_Join path "index.html")) as [i|ierr];
      [discriminate|].
    destruct (fs.Close f); intros [= _ <-]; right; eauto.
Qed.

(** X15 over a tree with a script and no index file at its root. *)
Lemma wrapperFS_Open_handles_witness :
  wrapperFS_Open (H:=Examples.serverEnv) Examples.assets "app.js"
  = (Ok (Examples.regularFile "console.log(1)"), []).
Proof.
  exact (proj1 (proj2 (wrapperFS_Open_handles (H:=Examples.serverEnv)
                         Examples.assets "app.js"))
               (Examples.regularFile "console.log(1)") (fs.mkFileInfo false)
               eq_refl eq_refl eq_refl).
Defined.

(** X16: the byte sliced off as the mount prefix is not inspected. In
    production a request whose path is one byte followed by segments
    that are neither hidden nor the support file is handed to the file
    server with its path as it came, whatever that first byte is, a dot
    included. *)
Theorem first_byte_unchecked `{ServerEnv} (vg : VitGo.t) (serveDir : fs.FS)
    (r : http.Request) (c : ascii) (rest : string) (newDir : fs.FS) :
  http.Path (http.Url r) = String c rest ->
  ~ Exists hidden (strings_Split rest "/") ->
  last_part (strings_Split rest "/") <> "preamble.js" ->
  VitGo.Debug vg = false ->
  VitGo.Environment vg = "production" ->
  fs_Sub serveDir (VitGo.AssetPath vg) = Ok newDir ->
  guardedFileServer vg serveDir r = logRequest (http_FileServer newDir) r.
Proof.
  intros Hpath Hno Hlast Hdebug Henv Hsub.
  assert (Hguard : guardPasses r = true).
  { unfold guardPasses. rewrite slice_from_one, Hpath. cbv zeta.
    now rewrite (bool_decide_eq_false_2 _ Hno), (bool_decide_eq_false_2 _ Hlast). }
  rewrite (guarded_program vg serveDir r Hguard (or_introl Hdebug)).
  unfold debugLog. rewrite Hdebug. cbn [logPrefix foldr].
  rewrite dispatch_target. unfold target.
  now rewrite (bool_decide_eq_true_2 _ Henv), Hsub.
Qed.

(** X16 at a request with the path [.env], as a handler mounted behind a
    prefix stripper that takes the slash receives it: the dot file of
    the output subdirectory is served. *)
Lemma first_byte_unchecked_witness :
  http.reply http.reliable
    (Examples.handler "production" false Examples.deployed (Examples.GET ".env"))
  = (http.mkResponse 200 [] "SECRET=1", false).
Proof.
  assert (Hsub : { newDir | Examples.sub
                              (wrapperFS (H:=Examples.serverEnv) Examples.deployed)
                              "dist" = Ok newDir }).
  { eexists. reflexivity. }
  destruct Hsub as [newDir Hsub].
  unfold Examples.handler.
  rewrite (first_byte_unchecked (H:=Examples.serverEnv)
             (VitGo.mk Examples.deployed "frontend" "dist" "production" false)
             (wrapperFS (H:=Examples.serverEnv) Examples.deployed)
             (Examples.GET ".env") "." "env" newDir eq_refl).
  - injection Hsub as <-. vm_compute. reflexivity.
  - vm_compute. intros Hex.
    repeat (apply Exists_cons in Hex as [[s Hs]|Hex]; [discriminate Hs|]).
    now apply Exists_nil in Hex.
  - vm_compute. discriminate.
  - reflexivity.
  - reflexivity.
  - exact Hsub.
Defined.
